(** * PDF text extractor (app.py): coordinate mapping, rasterizer sizing,
      region text extraction and the main script.

    Numbers.  Python's [int] values are modelled as [Z].  Python's [float]
    values (page sizes in points, canvas coordinates, scale factors) are
    modelled as exact rationals [Q]: every arithmetic step below is the exact
    operation, the binary64 rounding of the interpreter is not modelled.
    Equality of rationals is [Qeq] ([==]).  Properties that depend on the
    rounding itself (the exact size the rasterizer returns, a bound that is
    not an integer) are stated on module [Binary64], which holds the
    rasterizer with the interpreter's floats (Rocq's primitive binary64).

    Failure.  A Python exception is the [Raise] outcome of a computation.

    Library calls.  pdfplumber, PIL and the Streamlit widgets are not part
    of app.py.  What they return is carried by the data the program receives
    (fields of [Page], [Image], [Session]) or taken as a Section variable. *)

From Stdlib Require Import ZArith QArith Qround Lia List String Ascii Bool.
From Stdlib Require Import DecimalString DecimalZ DecimalPos Lqa.
From Stdlib Require PrimFloat FloatOps SpecFloat Uint63.
Import ListNotations.

Local Open Scope Z_scope.

(* ================================================================= *)
(** ** Exceptions and outcomes *)

Inductive exn : Type :=
| ZeroDivisionError
| IndexError
| TypeError
| LibraryError (msg : string).

(** [str(e)], as interpolated by [f"...{e}"].  For [ZeroDivisionError]
    this is the message of an int by int division, the one line 33 gives
    with the int defaults; Python 3.11 words the division of a float
    [float division by zero]. *)
Definition exn_str (e : exn) : string :=
  match e with
  | ZeroDivisionError => "division by zero"
  | IndexError => "list index out of range"
  | TypeError => "'NoneType' object is not subscriptable"
  | LibraryError msg => msg
  end.

Inductive outcome (A : Type) : Type :=
| Ok (a : A)
| Raise (e : exn).
Arguments Ok {A} a.
Arguments Raise {A} e.

Definition obind {A B} (m : outcome A) (k : A -> outcome B) : outcome B :=
  match m with
  | Ok a => k a
  | Raise e => Raise e
  end.

Declare Scope outcome_scope.
Delimit Scope outcome_scope with outcome.
Notation "'let?' x ':=' m 'in' k" :=
  (obind m (fun x => k))
  (at level 10, x pattern, m at level 100, k at level 200)
  : outcome_scope.

(* ================================================================= *)
(** ** Python arithmetic on the number model *)

Local Open Scope Q_scope.

(** [a / b]: true division, [ZeroDivisionError] on a zero divisor. *)
Definition py_div (a b : Q) : outcome Q :=
  if Qeq_bool b 0 then Raise ZeroDivisionError else Ok (a / b).

(** [min(a, b)]: the first argument unless the second is strictly smaller. *)
Definition py_min (a b : Q) : Q :=
  match Qcompare b a with
  | Lt => b
  | _ => a
  end.

(** [int(x)]: truncation toward zero. *)
Definition py_int (x : Q) : Z := Z.quot (Qnum x) (Zpos (Qden x)).

(* ================================================================= *)
(** ** Coordinate mapper: [scale_bbox_to_pdf] (app.py, lines 43-52) *)

Definition dims : Type := (Q * Q)%type.
Definition bbox : Type := (Q * Q * Q * Q)%type.

Definition scale_bbox_to_pdf (b : bbox) (canvas_dims pdf_dims : dims)
  : outcome bbox :=
  let '(canvas_width, canvas_height) := canvas_dims in
  let '(pdf_width, pdf_height) := pdf_dims in
  (let? scale_x := py_div pdf_width canvas_width in
   let? scale_y := py_div pdf_height canvas_height in
   let '(x0, y0, x1, y1) := b in
   Ok (x0 * scale_x, y0 * scale_y, x1 * scale_x, y1 * scale_y))%outcome.

(** Component-wise rational equality of rectangles. *)
Definition bbox_eq (a b : bbox) : Prop :=
  let '(a0, a1, a2, a3) := a in
  let '(b0, b1, b2, b3) := b in
  a0 == b0 /\ a1 == b1 /\ a2 == b2 /\ a3 == b3.

(** A rectangle is normalized when its corners are ordered on both axes. *)
Definition normalized (b : bbox) : Prop :=
  let '(x0, y0, x1, y1) := b in x0 <= x1 /\ y0 <= y1.

(* ================================================================= *)
(** ** Text *)

(** A Python [str] is modelled as a [string] whose characters are the code
    points below 256. *)

Local Open Scope string_scope.

(** The line feed written [\n] in the source. *)
Definition nl : string := String (ascii_of_nat 10) EmptyString.

(** [f"{n}"] for an [int]. *)
Definition str_int (n : Z) : string := NilZero.string_of_int (Z.to_int n).

(** Truth value of a [str]: false exactly for the empty one. *)
Definition str_truthy (s : string) : bool :=
  match s with
  | EmptyString => false
  | String _ _ => true
  end.

(** [str.isspace] on one character (code points below 256). *)
Definition is_space (c : ascii) : bool :=
  let n := N_of_ascii c in
  ((9 <=? n) && (n <=? 13) || (28 <=? n) && (n <=? 32)
   || (n =? 133) || (n =? 160))%N.

Fixpoint lstrip (s : string) : string :=
  match s with
  | EmptyString => EmptyString
  | String c s' => if is_space c then lstrip s' else s
  end.

Fixpoint rstrip (s : string) : string :=
  match s with
  | EmptyString => EmptyString
  | String c s' =>
      match rstrip s' with
      | EmptyString => if is_space c then EmptyString else String c EmptyString
      | r => String c r
      end
  end.

(** [s.strip()]: leading and trailing whitespace removed. *)
Definition strip (s : string) : string := rstrip (lstrip s).

(** Every character of the string is whitespace. *)
Fixpoint all_space (s : string) : bool :=
  match s with
  | EmptyString => true
  | String c s' => is_space c && all_space s'
  end.

(* ================================================================= *)
(** ** Library objects *)

(** A PIL image: its size, and whether [Image.resize] to a given size
    raises.  A resized image has the requested size. *)
Record Image : Type := {
  img_width : Z;
  img_height : Z;
  resize_error : Z * Z -> option exn
}.

Definition resize (img : Image) (size : Z * Z) : outcome Image :=
  match resize_error img size with
  | Some e => Raise e
  | None => Ok {| img_width := fst size;
                  img_height := snd size;
                  resize_error := resize_error img |}
  end.

(** A pdfplumber page: its size in points, the outcome of
    [page.to_image().original], and the outcome of
    [page.within_bbox(b).extract_text()] for every rectangle [b]
    ([None] when the library returns no string). *)
Record Page : Type := {
  page_width : Q;
  page_height : Q;
  to_image_original : outcome Image;
  within_bbox_extract_text : bbox -> outcome (option string)
}.

Record PDF : Type := { pages : list Page }.

(** [l[i]] on a Python list: negative indices count from the end. *)
Definition py_index {A : Type} (l : list A) (i : Z) : outcome A :=
  let n := Z.of_nat (List.length l) in
  let j := if (i <? 0)%Z then (i + n)%Z else i in
  if (j <? 0)%Z then Raise IndexError
  else match nth_error l (Z.to_nat j) with
       | Some a => Ok a
       | None => Raise IndexError
       end.

(* ================================================================= *)
(** ** Region text extractor: [extract_text_from_pdf] (lines 55-62) *)

(** [f"\n\n--- Page {page_number} ---\n{text}"] *)
Definition page_section (page_number : Z) (text : string) : string :=
  nl ++ nl ++ "--- Page " ++ str_int page_number ++ " ---" ++ nl ++ text.

(** The [for] loop over [enumerate(pdf.pages, start=1)]: [page_number] is
    the counter of [enumerate], [all_text] the accumulator. *)
Fixpoint extract_text_loop (ps : list Page) (page_number : Z)
    (scaled_bbox : bbox) (all_text : string) : outcome string :=
  match ps with
  | [] => Ok all_text
  | page :: rest =>
      (let? text := within_bbox_extract_text page scaled_bbox in
       let all_text' :=
         match text with
         | Some t => if str_truthy t
                     then all_text ++ page_section page_number t
                     else all_text
         | None => all_text
         end in
       extract_text_loop rest (page_number + 1)%Z scaled_bbox all_text')%outcome
  end.

Definition extract_text_from_pdf (pdf : PDF) (scaled_bbox : bbox)
  : outcome string :=
  extract_text_loop (pages pdf) 1%Z scaled_bbox "".

(** What a page yields for a region: some text, or nothing. *)
Definition yield : Type := option string.

(** [enumerate(l, start)] *)
Fixpoint enumerate {A : Type} (l : list A) (start : Z) : list (Z * A) :=
  match l with
  | [] => []
  | a :: l' => (start, a) :: enumerate l' (start + 1)%Z
  end.

(** The part of the result contributed by one numbered page, as the
    specification words it: nothing at all for a page without text, the
    header followed by the text otherwise. *)
Definition spec_page_part (entry : Z * yield) : string :=
  match entry with
  | (N, Some (String c t)) =>
      nl ++ nl ++ "--- Page " ++ str_int N ++ " ---" ++ nl ++ String c t
  | (_, _) => ""
  end.

(** ["".join(parts)] *)
Definition join (parts : list string) : string :=
  fold_right String.append "" parts.

(** The page yields text for the region (and does not raise). *)
Definition yields_text (b : bbox) (p : Page) : bool :=
  match within_bbox_extract_text p b with
  | Ok (Some t) => str_truthy t
  | _ => false
  end.

(** The characters every header starts with. *)
Definition header_start : string := nl ++ nl ++ "--- Page ".

(* ================================================================= *)
(** ** The Streamlit page and the run of the script *)

(** The functions of app.py; [Call f] in a trace marks a call of [f] made
    by [main]. *)
Inductive fn : Type :=
| Fn_load_pdf
| Fn_extract_page_image
| Fn_scale_bbox_to_pdf
| Fn_extract_text_from_pdf.

(** What the script puts on the page, in the order of the [st.*] calls. *)
Inductive event : Type :=
| St_title (body : string)
| St_markdown (body : string)
| St_sidebar_header (body : string)
| St_sidebar_file_uploader (label : string) (type : list string)
| St_sidebar_slider (label : string) (min_value max_value value : Z)
| St_write (body : string)
(** [st.write(f"Top-left: ({x0:.1f}, {y0:.1f}) | Bottom-right: ({x1:.1f}, {y1:.1f})")];
    the event keeps the four numbers, not their one-decimal rendering. *)
| St_write_corners (x0 y0 x1 y1 : Q)
| St_canvas (background_image : Image) (width height : Z)
| St_spinner (text : string)
| St_text_area (label value : string) (height : Z)
| St_download_button (label data file_name mime : string)
| St_info (body : string)
| St_warning (body : string)
| St_error (body : string)
| Call (f : fn).

Definition trace : Type := list event.

(** A computation that appends to the page and may raise. *)
Definition M (A : Type) : Type := trace -> outcome A * trace.

Definition ret {A} (a : A) : M A := fun t => (Ok a, t).

Definition bind {A B} (m : M A) (k : A -> M B) : M B :=
  fun t =>
    match m t with
    | (Ok a, t') => k a t'
    | (Raise e, t') => (Raise e, t')
    end.

Definition lift {A} (o : outcome A) : M A := fun t => (o, t).

Definition emit (e : event) : M unit := fun t => (Ok tt, (t ++ [e])%list).

(** [try: body  except Exception as e: handler(e)] *)
Definition try_except {A} (body : M A) (handler : exn -> M A) : M A :=
  fun t =>
    match body t with
    | (Ok a, t') => (Ok a, t')
    | (Raise e, t') => handler e t'
    end.

Declare Scope M_scope.
Delimit Scope M_scope with M.
Notation "x <- m ;; k" := (bind m (fun x => k))
  (at level 61, m at next level, right associativity) : M_scope.
Notation "' p <- m ;; k" := (bind m (fun x => match x with p => k end))
  (at level 61, p pattern, m at next level, right associativity) : M_scope.
Notation "m ;; k" := (bind m (fun _ => k))
  (at level 61, right associativity) : M_scope.

(** A call of one of the functions of app.py from [main]. *)
Definition calling {A} (f : fn) (m : M A) : M A :=
  (emit (Call f) ;; m)%M.

(** Unpacking or subscripting a value that may be [None]. *)
Definition not_none {A} (o : option A) : outcome A :=
  match o with
  | Some a => Ok a
  | None => Raise TypeError
  end.

(* ================================================================= *)
(** ** Page rasterizer: [extract_page_image] (lines 25-40) *)

Definition default_max_width : Q := 800.
Definition default_max_height : Q := 1000.

(** Lines 33-35: the scale factor and the new size. *)
Definition scale_factor_of (img_pil : Image) (max_width max_height : Q)
  : outcome Q :=
  (let? a := py_div max_width (inject_Z (img_width img_pil)) in
   let? b := py_div max_height (inject_Z (img_height img_pil)) in
   Ok (py_min a b))%outcome.

(** Lines 28-37: the body of the [try] block. *)
Definition extract_page_image_try (pdf : PDF) (page_number : Z)
    (max_width max_height : Q) : outcome (Image * (Z * Z) * (Q * Q)) :=
  (let? page := py_index (pages pdf) page_number in
   let? img_pil := to_image_original page in
   let? scale_factor := scale_factor_of img_pil max_width max_height in
   let new_width := py_int (inject_Z (img_width img_pil) * scale_factor) in
   let new_height := py_int (inject_Z (img_height img_pil) * scale_factor) in
   let? img_resized := resize img_pil (new_width, new_height) in
   Ok (img_resized, (new_width, new_height),
       (page_width page, page_height page)))%outcome.

Definition extract_page_image (pdf : PDF) (page_number : Z)
    (max_width max_height : Q)
  : M (option Image * option (Z * Z) * option (Q * Q)) :=
  try_except
    ('(img_resized, size, pdf_dims) <-
        lift (extract_page_image_try pdf page_number max_width max_height) ;;
     ret (Some img_resized, Some size, Some pdf_dims))%M
    (fun e =>
       (emit (St_error ("Error processing page image: " ++ exn_str e)) ;;
        ret (None, None, None))%M).

(** [round(x)] of the specification: the nearest integer, a half going to
    the even neighbour. *)
Definition spec_round (x : Q) : Z :=
  let f := Qfloor x in
  match Qcompare (x - inject_Z f) (1 # 2) with
  | Lt => f
  | Gt => (f + 1)%Z
  | Eq => if Z.even f then f else (f + 1)%Z
  end.

(* ================================================================= *)
(** ** The script: [load_pdf] (lines 15-22) and [main] (lines 66-131) *)

Definition UploadedFile : Type := list Byte.byte.

(** One rectangle drawn on the canvas, as in [json_data["objects"]]. *)
Record CanvasObject : Type := {
  obj_left : Q;
  obj_top : Q;
  obj_width : Q;
  obj_height : Q
}.

(** What the widgets hand back during one run of the script. *)
Record Session : Type := {
  (** [st.sidebar.file_uploader(...)]: the upload, or [None]. *)
  uploaded : option UploadedFile;
  (** [st.sidebar.slider(label, min, max, value)]: the selected number. *)
  slider : Z -> Z -> Z -> outcome Z;
  (** [canvas_result.json_data], reduced to its ["objects"] list. *)
  json_data : option (list CanvasObject)
}.

(** Truth values in [main]: a [PDF], an image and an uploaded file are
    objects without [__bool__] or [__len__], so [if x:] only tells them from
    [None]; a list is true when it is not empty, a [str] likewise. *)

Section Script.

(** [pdfplumber.open] *)
Variable pdfplumber_open : UploadedFile -> outcome PDF.

Definition load_pdf (pdf_file : UploadedFile) : M (option PDF) :=
  try_except
    (pdf <- lift (pdfplumber_open pdf_file) ;; ret (Some pdf))%M
    (fun e =>
       (emit (St_error ("Failed to load PDF: " ++ exn_str e)) ;;
        ret None)%M).

(** Lines 113-123: what is shown for the extracted text. *)
Definition main_show_text (extracted_text : string) : M unit :=
  (if str_truthy (strip extracted_text)
   then
     emit (St_write "Extracted Text") ;;
     emit (St_text_area "Text from the selected area:" extracted_text 300) ;;
     emit (St_download_button "Download Extracted Text" extracted_text
             "extracted_text.txt" "text/plain")
   else
     emit (St_warning "No text found in the selected area across all pages."))%M.

(** Lines 99-123: the last drawn rectangle is mapped and extracted. *)
Definition main_process_bbox (pdf : PDF) (objects : list CanvasObject)
    (last_object : CanvasObject)
    (canvas_dims : option (Z * Z)) (pdf_dims : option (Q * Q)) : M unit :=
  (let x0 := obj_left last_object in
   let y0 := obj_top last_object in
   let x1 := (x0 + obj_width last_object)%Q in
   let y1 := (y0 + obj_height last_object)%Q in
   emit (St_write "Bounding Box Coordinates") ;;
   emit (St_write_corners x0 y0 x1 y1) ;;
   scaled_bbox <-
     calling Fn_scale_bbox_to_pdf
       ('(canvas_width, canvas_height) <- lift (not_none canvas_dims) ;;
        pd <- lift (not_none pdf_dims) ;;
        lift (scale_bbox_to_pdf (x0, y0, x1, y1)
                (inject_Z canvas_width, inject_Z canvas_height) pd)) ;;
   emit (St_spinner "Extracting text from PDF...") ;;
   extracted_text <-
     calling Fn_extract_text_from_pdf
       (lift (extract_text_from_pdf pdf scaled_bbox)) ;;
   main_show_text extracted_text)%M.

(** Lines 78-127: the page is chosen, rendered and offered for drawing. *)
Definition main_with_pdf (s : Session) (pdf : PDF) : M unit :=
  (let total_pages := Z.of_nat (List.length (pages pdf)) in
   emit (St_sidebar_slider "Select Page Number" 1 total_pages 1) ;;
   selected <- lift (slider s 1 total_pages 1)%Z ;;
   let page_number := (selected - 1)%Z in
   '(img_pil, canvas_dims, pdf_dims) <-
     calling Fn_extract_page_image
       (extract_page_image pdf page_number
          default_max_width default_max_height) ;;
   match img_pil with
   | Some img =>
       emit (St_write ("Page " ++ str_int (page_number + 1)
                       ++ ": Draw a bounding box to select text")) ;;
       '(width, height) <- lift (not_none canvas_dims) ;;
       emit (St_canvas img width height) ;;
       match json_data s with
       | Some (o :: objects) =>
           main_process_bbox pdf (o :: objects) (last objects o)
             canvas_dims pdf_dims
       | _ => emit (St_info "Draw a bounding box to select text.")
       end
   | None => emit (St_error "Failed to process the selected page.")
   end)%M.

Definition main (s : Session) : M unit :=
  (emit (St_title "PDF Text Extractor") ;;
   emit (St_markdown
     "Upload a PDF, draw a bounding box, and extract text from the selected area.") ;;
   emit (St_sidebar_header "Upload your files here") ;;
   emit (St_sidebar_file_uploader "Select a PDF" ["pdf"]) ;;
   match uploaded s with
   | Some uploaded_pdf =>
       pdf <- calling Fn_load_pdf (load_pdf uploaded_pdf) ;;
       match pdf with
       | Some pdf => main_with_pdf s pdf
       | None => emit (St_error "Invalid PDF file. Please try again.")
       end
   | None => emit (St_info "Upload a PDF file to start extracting text.")
   end)%M.

End Script.

(* ================================================================= *)
(** ** Lines 33-35 in binary64 *)

(** The same three lines evaluated with the interpreter's floats, for
    integer sizes and bounds below 2^53 (which convert exactly). *)
Module Binary64.

Import PrimFloat FloatOps SpecFloat.

Definition float_of_int (n : Z) : float :=
  if (n <? 0)%Z then opp (of_uint63 (Uint63.of_Z (- n)))
  else of_uint63 (Uint63.of_Z n).

(** [int(x)]: truncation toward zero; an infinity or a NaN raises. *)
Definition py_int (x : float) : outcome Z :=
  match Prim2SF x with
  | S754_zero _ => Ok 0%Z
  | S754_finite sgn m e =>
      let a := if (0 <=? e)%Z then (Z.pos m * 2 ^ e)%Z
               else (Z.pos m / 2 ^ (- e))%Z in
      Ok (if sgn then (- a)%Z else a)
  | _ => Raise (LibraryError "cannot convert float to integer")
  end.

Definition py_div (a b : Z) : outcome float :=
  if (b =? 0)%Z then Raise ZeroDivisionError
  else Ok (div (float_of_int a) (float_of_int b)).

Definition py_min (a b : float) : float := if ltb b a then b else a.

Definition new_size (width height max_width max_height : Z)
  : outcome (Z * Z) :=
  (let? a := py_div max_width width in
   let? b := py_div max_height height in
   let scale_factor := py_min a b in
   let? new_width := py_int (mul (float_of_int width) scale_factor) in
   let? new_height := py_int (mul (float_of_int height) scale_factor) in
   Ok (new_width, new_height))%outcome.

(** The exact value of a finite float, [(-1)^sgn * m * 2^e], as a
    rational. *)
Definition value (x : float) : option Q :=
  match Prim2SF x with
  | S754_zero _ => Some 0%Q
  | S754_finite sgn m e =>
      let v := if (0 <=? e)%Z then inject_Z (Z.pos m * 2 ^ e)
               else Qmake (Z.pos m) (2 ^ Z.to_pos (- e)) in
      Some (if sgn then (- v)%Q else v)
  | _ => None
  end.

(** [bound / side] at line 33: the bound as a float (an int bound below
    2^53, such as the defaults 800 and 1000, converts exactly and its true
    division by an int is this quotient), the side an int.  The exception
    of a zero side is worded by [exn_str] as for an int bound. *)
Definition div_by_int (bound : float) (side : Z) : outcome float :=
  if (side =? 0)%Z then Raise ZeroDivisionError
  else Ok (div bound (float_of_int side)).

Definition scale_factor_of (img_pil : Image) (max_width max_height : float)
  : outcome float :=
  (let? a := div_by_int max_width (img_width img_pil) in
   let? b := div_by_int max_height (img_height img_pil) in
   Ok (py_min a b))%outcome.

(** Lines 28-37 with the interpreter's floats. *)
Definition extract_page_image_try (pdf : PDF) (page_number : Z)
    (max_width max_height : float) : outcome (Image * (Z * Z) * (Q * Q)) :=
  (let? page := py_index (pages pdf) page_number in
   let? img_pil := to_image_original page in
   let? scale_factor := scale_factor_of img_pil max_width max_height in
   let? new_width :=
     py_int (mul (float_of_int (img_width img_pil)) scale_factor) in
   let? new_height :=
     py_int (mul (float_of_int (img_height img_pil)) scale_factor) in
   let? img_resized := resize img_pil (new_width, new_height) in
   Ok (img_resized, (new_width, new_height),
       (page_width page, page_height page)))%outcome.

(** Lines 25-40 with the interpreter's floats. *)
Definition extract_page_image (pdf : PDF) (page_number : Z)
    (max_width max_height : float)
  : M (option Image * option (Z * Z) * option (Q * Q)) :=
  try_except
    ('(img_resized, size, pdf_dims) <-
        lift (extract_page_image_try pdf page_number max_width max_height) ;;
     ret (Some img_resized, Some size, Some pdf_dims))%M
    (fun e =>
       (emit (St_error ("Error processing page image: " ++ exn_str e)) ;;
        ret (None, None, None))%M).

(** The defaults of the signature, [max_width=800, max_height=1000]. *)
Definition default_max_width : float := float_of_int 800.
Definition default_max_height : float := float_of_int 1000.


End Binary64.

(* ================================================================= *)
(** ** Reading a trace *)

(** The four elements every run starts with (lines 67-72). *)
Definition main_heading : trace :=
  [St_title "PDF Text Extractor";
   St_markdown
     "Upload a PDF, draw a bounding box, and extract text from the selected area.";
   St_sidebar_header "Upload your files here";
   St_sidebar_file_uploader "Select a PDF" ["pdf"]].

(** What a run has put on the page when it reaches the extraction: the
    upload was parsed, page [selected] was rendered to [img] of size
    [width] x [height], and the rectangle [o] was the last one drawn. *)
Definition shown_before_extraction (pdf : PDF) (selected : Z) (img : Image)
    (width height : Z) (o : CanvasObject) : trace :=
  (main_heading ++
   [Call Fn_load_pdf;
    St_sidebar_slider "Select Page Number" 1
      (Z.of_nat (List.length (pages pdf))) 1;
    Call Fn_extract_page_image;
    St_write ("Page " ++ str_int (selected - 1 + 1)
              ++ ": Draw a bounding box to select text");
    St_canvas img width height;
    St_write "Bounding Box Coordinates";
    St_write_corners (obj_left o) (obj_top o)
      (obj_left o + obj_width o)%Q (obj_top o + obj_height o)%Q;
    Call Fn_scale_bbox_to_pdf;
    St_spinner "Extracting text from PDF...";
    Call Fn_extract_text_from_pdf])%list.

(** Failure notices ([st.error]) and warnings ([st.warning]). *)
Definition is_error (e : event) : bool :=
  match e with St_error _ => true | _ => false end.

Definition is_warning (e : event) : bool :=
  match e with St_warning _ => true | _ => false end.

(** The rectangle of a drawn object: [(left, top, left+width, top+height)]. *)
Definition corners (o : CanvasObject) : bbox :=
  (obj_left o, obj_top o,
   (obj_left o + obj_width o)%Q, (obj_top o + obj_height o)%Q).

(* ================================================================= *)
(** ** Sample documents *)

(** An image of the given size whose [resize] refuses an empty size. *)
Definition sample_image (w h : Z) : Image :=
  {| img_width := w;
     img_height := h;
     resize_error := fun size =>
       if ((fst size <? 1) || (snd size <? 1))%Z
       then Some (LibraryError "height and width must be > 0")
       else None |}.

(** A page rendered at one pixel per point, with the given text lookup. *)
Definition sample_page (w h : Z) (text : bbox -> outcome (option string))
  : Page :=
  {| page_width := inject_Z w;
     page_height := inject_Z h;
     to_image_original := Ok (sample_image w h);
     within_bbox_extract_text := text |}.

Definition no_text : bbox -> outcome (option string) := fun _ => Ok None.
Definition empty_text : bbox -> outcome (option string) :=
  fun _ => Ok (Some "").
Definition fixed_text (s : string) : bbox -> outcome (option string) :=
  fun _ => Ok (Some s).
Definition bad_bbox : bbox -> outcome (option string) :=
  fun _ => Raise (LibraryError "Bounding box is not fully within parent page bounding box").

(** A 600 x 800 page, enlarged by the rasterizer (scale 5/4). *)
Definition small_pdf : PDF := {| pages := [sample_page 600 800 no_text] |}.

(** A 1001 x 1600 page, reduced by the rasterizer (scale 5/8). *)
Definition tall_pdf : PDF := {| pages := [sample_page 1001 1600 no_text] |}.

(** Two pages, only the second with text. *)
Definition two_page_pdf : PDF :=
  {| pages := [sample_page 600 800 no_text;
               sample_page 600 800 (fixed_text "hello")] |}.

(** Two pages with nothing but whitespace or nothing at all. *)
Definition blank_pdf : PDF :=
  {| pages := [sample_page 600 800 empty_text;
               sample_page 600 800 no_text] |}.

(** One page whose only text is a space. *)
Definition space_pdf : PDF :=
  {| pages := [sample_page 600 800 (fixed_text " ")] |}.

(** One page on which the library rejects the rectangle. *)
Definition failing_pdf : PDF :=
  {| pages := [sample_page 600 800 bad_bbox] |}.

Definition sample_rect : CanvasObject :=
  {| obj_left := 100; obj_top := 100; obj_width := 200; obj_height := 100 |}.

(** A run with an upload, the first page selected, one rectangle drawn. *)
Definition sample_session : Session :=
  {| uploaded := Some [];
     slider := fun _ _ value => Ok value;
     json_data := Some [sample_rect] |}.

(* ================================================================= *)
(** ** Stages of a run *)

(** The page up to the page slider: the upload was parsed. *)
Definition shown_until_slider (pdf : PDF) : trace :=
  (main_heading ++
   [Call Fn_load_pdf;
    St_sidebar_slider "Select Page Number" 1
      (Z.of_nat (List.length (pages pdf))) 1])%list.

(** The page up to the canvas: page [selected] was rendered. *)
Definition shown_until_canvas (pdf : PDF) (selected : Z) (img : Image)
    (width height : Z) : trace :=
  (shown_until_slider pdf ++
   [Call Fn_extract_page_image;
    St_write ("Page " ++ str_int (selected - 1 + 1)
              ++ ": Draw a bounding box to select text");
    St_canvas img width height])%list.

(** The page up to the call of the mapper for the rectangle [o]. *)
Definition shown_until_mapping (pdf : PDF) (selected : Z) (img : Image)
    (width height : Z) (o : CanvasObject) : trace :=
  (shown_until_canvas pdf selected img width height ++
   [St_write "Bounding Box Coordinates";
    St_write_corners (obj_left o) (obj_top o)
      (obj_left o + obj_width o)%Q (obj_top o + obj_height o)%Q;
    Call Fn_scale_bbox_to_pdf])%list.

(** What [main_show_text] adds for an extracted text. *)
Definition shown_for_text (extracted_text : string) : trace :=
  if str_truthy (strip extracted_text)
  then [St_write "Extracted Text";
        St_text_area "Text from the selected area:" extracted_text 300;
        St_download_button "Download Extracted Text" extracted_text
          "extracted_text.txt" "text/plain"]
  else [St_warning "No text found in the selected area across all pages."].

(** The whole run of [main] from the values the library calls and the
    widgets return, written as one case analysis. *)
Definition main_cases (pdfplumber_open : UploadedFile -> outcome PDF)
    (s : Session) (t : trace) : outcome unit * trace :=
  match uploaded s with
  | None =>
      (Ok tt,
       (t ++ main_heading ++
        [St_info "Upload a PDF file to start extracting text."])%list)
  | Some f =>
    match pdfplumber_open f with
    | Raise e =>
        (Ok tt,
         (t ++ main_heading ++
          [Call Fn_load_pdf;
           St_error ("Failed to load PDF: " ++ exn_str e);
           St_error "Invalid PDF file. Please try again."])%list)
    | Ok pdf =>
      match slider s 1%Z (Z.of_nat (List.length (pages pdf))) 1%Z with
      | Raise e => (Raise e, (t ++ shown_until_slider pdf)%list)
      | Ok selected =>
        match extract_page_image_try pdf (selected - 1)
                default_max_width default_max_height with
        | Raise e =>
            (Ok tt,
             (t ++ shown_until_slider pdf ++
              [Call Fn_extract_page_image;
               St_error ("Error processing page image: " ++ exn_str e);
               St_error "Failed to process the selected page."])%list)
        | Ok (img, (width, height), pd) =>
          match json_data s with
          | Some (o :: objects) =>
            let last_object := last objects o in
            match scale_bbox_to_pdf (corners last_object)
                    (inject_Z width, inject_Z height) pd with
            | Raise e =>
                (Raise e,
                 (t ++ shown_until_mapping pdf selected img width height
                         last_object)%list)
            | Ok scaled_bbox =>
              match extract_text_from_pdf pdf scaled_bbox with
              | Raise e =>
                  (Raise e,
                   (t ++ shown_before_extraction pdf selected img
                           width height last_object)%list)
              | Ok extracted_text =>
                  (Ok tt,
                   (t ++ shown_before_extraction pdf selected img
                           width height last_object
                      ++ shown_for_text extracted_text)%list)
              end
            end
          | _ =>
              (Ok tt,
               (t ++ shown_until_canvas pdf selected img width height ++
                [St_info "Draw a bounding box to select text."])%list)
          end
        end
      end
    end
  end.

(** The character occurs in the string. *)
Fixpoint contains_char (c : ascii) (s : string) : bool :=
  match s with
  | EmptyString => false
  | String x s' => Ascii.eqb x c || contains_char c s'
  end.

(** The calls recorded in a trace, in order. *)
Fixpoint calls_of (t : trace) : list fn :=
  match t with
  | [] => []
  | Call f :: t' => f :: calls_of t'
  | _ :: t' => calls_of t'
  end.

(** The stages of the script in the order of the data flow. *)
Definition pipeline : list fn :=
  [Fn_load_pdf; Fn_extract_page_image; Fn_scale_bbox_to_pdf;
   Fn_extract_text_from_pdf].

(* ================================================================= *)
(** ** Lines 48-52 in binary64 *)

(** One coordinate through the mapper with the interpreter's floats, for
    integer arguments below 2^53: [x * (pdf_side / canvas_side)]. *)
Module Binary64Mapper.

Import PrimFloat.

Definition scale_coordinate (x canvas_side pdf_side : Z) : outcome float :=
  (let? scale := Binary64.py_div pdf_side canvas_side in
   Ok (mul (Binary64.float_of_int x) scale))%outcome.

End Binary64Mapper.

(** A document the library opens although it has no page. *)
Definition empty_pdf : PDF := {| pages := [] |}.



(* ================================================================= *)
(** * Properties *)

Local Open Scope Q_scope.

(* ----------------------------------------------------------------- *)
(** *** Division helpers *)

Lemma py_div_nonzero (a b : Q) : ~ b == 0 -> py_div a b = Ok (a / b).
Proof.
  intros Hb. unfold py_div.
  destruct (Qeq_bool b 0) eqn:E; [|reflexivity].
  apply Qeq_bool_iff in E. contradiction.
Qed.

Lemma py_div_zero (a b : Q) : b == 0 -> py_div a b = Raise ZeroDivisionError.
Proof.
  intros Hb. unfold py_div.
  apply Qeq_bool_iff in Hb. now rewrite Hb.
Qed.

Lemma scale_unscale (x p c : Q) :
  ~ p == 0 -> ~ c == 0 -> x * (p / c) * (c / p) == x.
Proof. intros Hp Hc. field. split; assumption. Qed.

Lemma scale_pos (p c : Q) : 0 < p -> 0 < c -> 0 < p / c.
Proof.
  intros Hp Hc. unfold Qdiv.
  apply Qmult_lt_0_compat; [assumption|].
  apply Qinv_lt_0_compat. assumption.
Qed.

Lemma pos_nonzero (q : Q) : 0 < q -> ~ q == 0.
Proof. intros H E. rewrite E in H. apply (Qlt_irrefl 0 H). Qed.

Lemma scale_bbox_to_pdf_ok (x0 y0 x1 y1 cw ch pw ph : Q) :
  ~ cw == 0 -> ~ ch == 0 ->
  scale_bbox_to_pdf (x0, y0, x1, y1) (cw, ch) (pw, ph)
  = Ok (x0 * (pw / cw), y0 * (ph / ch), x1 * (pw / cw), y1 * (ph / ch)).
Proof.
  intros Hcw Hch. unfold scale_bbox_to_pdf.
  rewrite (py_div_nonzero pw cw Hcw), (py_div_nonzero ph ch Hch).
  reflexivity.
Qed.

(** A zero canvas dimension makes the mapper raise. *)
Lemma scale_bbox_to_pdf_zero_width (b : bbox) (cw ch pw ph : Q) :
  cw == 0 -> scale_bbox_to_pdf b (cw, ch) (pw, ph) = Raise ZeroDivisionError.
Proof.
  intros Hcw. unfold scale_bbox_to_pdf.
  now rewrite (py_div_zero pw cw Hcw).
Qed.

Lemma scale_bbox_to_pdf_zero_height (b : bbox) (cw ch pw ph : Q) :
  ch == 0 -> scale_bbox_to_pdf b (cw, ch) (pw, ph) = Raise ZeroDivisionError.
Proof.
  intros Hch. unfold scale_bbox_to_pdf.
  rewrite (py_div_zero ph ch Hch).
  unfold py_div at 1. destruct (Qeq_bool cw 0); reflexivity.
Qed.

(* ----------------------------------------------------------------- *)
(** *** Claims on the coordinate mapper *)

(** C1: on non-zero canvas dimensions the mapper returns, without raising,
    exactly [(x0*scaleX, y0*scaleY, x1*scaleX, y1*scaleY)] with
    [scaleX = pointW / pixelW] and [scaleY = pointH / pixelH].  The function
    is a value of type [outcome bbox]: it takes and returns no program
    state. *)
Theorem scale_bbox_to_pdf_formula
  (x0 y0 x1 y1 pixelW pixelH pointW pointH : Q) :
  ~ pixelW == 0 -> ~ pixelH == 0 ->
  let scaleX := pointW / pixelW in
  let scaleY := pointH / pixelH in
  scale_bbox_to_pdf (x0, y0, x1, y1) (pixelW, pixelH) (pointW, pointH)
  = Ok (x0 * scaleX, y0 * scaleY, x1 * scaleX, y1 * scaleY).
Proof.
  intros HW HH scaleX scaleY. subst scaleX scaleY.
  apply scale_bbox_to_pdf_ok; assumption.
Qed.

Lemma scale_bbox_to_pdf_formula_witness :
  scale_bbox_to_pdf (100, 100, 300, 200) (619, 800) (612, 792)
  = Ok (100 * (612 / 619), 100 * (792 / 800),
        300 * (612 / 619), 200 * (792 / 800)).
Proof.
  apply (scale_bbox_to_pdf_formula 100 100 300 200 619 800 612 792);
    intro H; vm_compute in H; discriminate.
Defined.

(** C4: mapping with [(pixelDims, pointDims)] and then with the two tuples
    swapped gives back the rectangle, exactly in rational arithmetic. *)
Theorem scale_bbox_round_trip (R : bbox) (pixelDims pointDims : dims) :
  ~ fst pixelDims == 0 -> ~ snd pixelDims == 0 ->
  ~ fst pointDims == 0 -> ~ snd pointDims == 0 ->
  exists P R',
    scale_bbox_to_pdf R pixelDims pointDims = Ok P /\
    scale_bbox_to_pdf P pointDims pixelDims = Ok R' /\
    bbox_eq R' R.
Proof.
  destruct R as [[[x0 y0] x1] y1].
  destruct pixelDims as [cw ch]. destruct pointDims as [pw ph].
  simpl fst; simpl snd. intros Hcw Hch Hpw Hph.
  eexists. eexists.
  split; [apply scale_bbox_to_pdf_ok; assumption|].
  split; [apply scale_bbox_to_pdf_ok; assumption|].
  unfold bbox_eq. repeat split; apply scale_unscale; assumption.
Qed.

Lemma scale_bbox_round_trip_witness :
  exists P R',
    scale_bbox_to_pdf (100, 100, 300, 200) (619, 800) (612, 792) = Ok P /\
    scale_bbox_to_pdf P (612, 792) (619, 800) = Ok R' /\
    bbox_eq R' (100, 100, 300, 200).
Proof.
  apply (scale_bbox_round_trip (100, 100, 300, 200) (619, 800) (612, 792));
    intro H; vm_compute in H; discriminate.
Defined.

(** C9: with all four dimensions positive the mapper succeeds and keeps the
    corner order on both axes; a rectangle of zero width (height) is mapped
    to a rectangle of zero width (height). *)
Theorem scale_bbox_preserves_normalized
  (x0 y0 x1 y1 : Q) (canvas_dims pdf_dims : dims) :
  0 < fst canvas_dims -> 0 < snd canvas_dims ->
  0 < fst pdf_dims -> 0 < snd pdf_dims ->
  x0 <= x1 -> y0 <= y1 ->
  exists x0' y0' x1' y1',
    scale_bbox_to_pdf (x0, y0, x1, y1) canvas_dims pdf_dims
    = Ok (x0', y0', x1', y1') /\
    normalized (x0', y0', x1', y1') /\
    (x0 == x1 -> x0' == x1') /\
    (y0 == y1 -> y0' == y1').
Proof.
  destruct canvas_dims as [cw ch]. destruct pdf_dims as [pw ph].
  simpl fst; simpl snd. intros Hcw Hch Hpw Hph Hx Hy.
  do 4 eexists.
  split; [apply scale_bbox_to_pdf_ok; apply pos_nonzero; assumption|].
  split; [split|split].
  - apply Qmult_le_compat_r; [assumption|].
    apply Qlt_le_weak, scale_pos; assumption.
  - apply Qmult_le_compat_r; [assumption|].
    apply Qlt_le_weak, scale_pos; assumption.
  - intros E. now rewrite E.
  - intros E. now rewrite E.
Qed.

Lemma scale_bbox_preserves_normalized_witness :
  exists x0' y0' x1' y1',
    scale_bbox_to_pdf (100, 100, 300, 200) (619, 800) (612, 792)
    = Ok (x0', y0', x1', y1') /\
    normalized (x0', y0', x1', y1') /\
    (100 == 300 -> x0' == x1') /\
    (100 == 200 -> y0' == y1').
Proof.
  apply (scale_bbox_preserves_normalized 100 100 300 200 (619, 800) (612, 792));
    vm_compute; solve [reflexivity | discriminate].
Defined.


(* ----------------------------------------------------------------- *)
(** *** [min] and [int] *)

Lemma py_min_le_l (a b : Q) : py_min a b <= a.
Proof.
  unfold py_min. destruct (Qcompare b a) eqn:E; try apply Qle_refl.
  apply Qlt_le_weak. now apply Qlt_alt.
Qed.

Lemma py_min_le_r (a b : Q) : py_min a b <= b.
Proof.
  unfold py_min. destruct (Qcompare b a) eqn:E.
  - apply Qeq_alt in E. rewrite E. apply Qle_refl.
  - apply Qle_refl.
  - apply Qlt_le_weak. apply Qgt_alt in E. exact E.
Qed.

Lemma py_min_cases (a b : Q) : py_min a b = a \/ py_min a b = b.
Proof. unfold py_min. destruct (Qcompare b a); auto. Qed.

Lemma py_min_pos (a b : Q) : 0 < a -> 0 < b -> 0 < py_min a b.
Proof. intros Ha Hb. destruct (py_min_cases a b) as [-> | ->]; assumption. Qed.

(** On non-negative numbers [int] is the floor. *)
Lemma py_int_nonneg (x : Q) : 0 <= x -> py_int x = Qfloor x.
Proof.
  destruct x as [n d]. unfold py_int, Qfloor, Qle. simpl.
  intros H. apply Z.quot_div_nonneg; lia.
Qed.

(** On non-positive numbers it is the ceiling. *)
Lemma py_int_nonpos (x : Q) : x <= 0 -> py_int x = Qceiling x.
Proof.
  destruct x as [n d]. unfold py_int, Qceiling, Qfloor, Qle, Qopp. simpl.
  intros H.
  rewrite <- (Z.opp_involutive n) at 1.
  rewrite Z.quot_opp_l by lia.
  f_equal. apply Z.quot_div_nonneg; lia.
Qed.

(* ----------------------------------------------------------------- *)
(** *** The rasterizer's arithmetic *)

Section Sizing.

Variable img : Image.
Variables max_width max_height : Q.
Hypothesis width_pos : (0 < img_width img)%Z.
Hypothesis height_pos : (0 < img_height img)%Z.
Hypothesis max_width_pos : 0 < max_width.
Hypothesis max_height_pos : 0 < max_height.

Let W : Q := inject_Z (img_width img).
Let H : Q := inject_Z (img_height img).
Let s : Q := py_min (max_width / W) (max_height / H).

Lemma W_pos : 0 < W.
Proof. unfold W. rewrite <- (Zlt_Qlt 0). exact width_pos. Qed.

Lemma H_pos : 0 < H.
Proof. unfold H. rewrite <- (Zlt_Qlt 0). exact height_pos. Qed.

Lemma scale_factor_of_pos :
  scale_factor_of img max_width max_height = Ok s.
Proof.
  unfold scale_factor_of.
  rewrite (py_div_nonzero _ _ (pos_nonzero _ W_pos)).
  rewrite (py_div_nonzero _ _ (pos_nonzero _ H_pos)).
  reflexivity.
Qed.

Lemma s_pos : 0 < s.
Proof.
  apply py_min_pos; apply scale_pos;
    auto using W_pos, H_pos.
Qed.



Lemma int_W_s : py_int (W * s) = Qfloor (W * s).
Proof.
  apply py_int_nonneg, Qlt_le_weak, Qmult_lt_0_compat;
    auto using W_pos, s_pos.
Qed.

Lemma int_H_s : py_int (H * s) = Qfloor (H * s).
Proof.
  apply py_int_nonneg, Qlt_le_weak, Qmult_lt_0_compat;
    auto using H_pos, s_pos.
Qed.

End Sizing.

(** A scaled side is at most one pixel above its floor. *)
Lemma floor_within_one (x : Q) :
  x - 1 <= inject_Z (Qfloor x) /\ inject_Z (Qfloor x) <= x.
Proof.
  split; [|apply Qfloor_le].
  generalize (Qlt_floor x). rewrite inject_Z_plus.
  intros Hlt. apply Qlt_le_weak.
  apply Qplus_lt_l with (z := 1).
  setoid_replace (x - 1 + 1) with x by ring. exact Hlt.
Qed.

(** Scaling up an integer side never shrinks it. *)
Lemma floor_scale_up (n : Z) (s : Q) :
  (0 <= n)%Z -> 1 <= s -> (n <= Qfloor (inject_Z n * s))%Z.
Proof.
  intros Hn Hs.
  rewrite <- (Qfloor_Z n) at 1. apply Qfloor_resp_le.
  setoid_replace (inject_Z n) with (inject_Z n * 1) at 1 by ring.
  rewrite (Qmult_comm _ 1), (Qmult_comm _ s).
  apply Qmult_le_compat_r; [exact Hs|].
  rewrite <- (Zle_Qle 0). exact Hn.
Qed.

(* ----------------------------------------------------------------- *)
(** *** Runs of [extract_page_image] *)

(** The two ways out of the function: the triple of the [try] block with
    the page untouched, or the error message and three [None]. *)
Lemma extract_page_image_run (pdf : PDF) (page_number : Z)
    (max_width max_height : Q) (t : trace) :
  extract_page_image pdf page_number max_width max_height t =
  match extract_page_image_try pdf page_number max_width max_height with
  | Ok (img_resized, size, pdf_dims) =>
      (Ok (Some img_resized, Some size, Some pdf_dims), t)
  | Raise e =>
      (Ok (None, None, None),
       (t ++ [St_error ("Error processing page image: " ++ exn_str e)])%list)
  end.
Proof.
  unfold extract_page_image, try_except, bind, lift, ret, emit.
  destruct (extract_page_image_try pdf page_number max_width max_height)
    as [[[i sz] pd]|e]; reflexivity.
Qed.

Lemma extract_page_image_some (pdf : PDF) (page_number : Z)
    (max_width max_height : Q) (t t' : trace)
    (img' : Image) (size : option (Z * Z)) (pd : option (Q * Q)) :
  extract_page_image pdf page_number max_width max_height t
  = (Ok (Some img', size, pd), t') ->
  exists sz p,
    size = Some sz /\ pd = Some p /\ t' = t /\
    extract_page_image_try pdf page_number max_width max_height
    = Ok (img', sz, p).
Proof.
  rewrite extract_page_image_run.
  destruct (extract_page_image_try pdf page_number max_width max_height)
    as [[[i sz] p]|e]; intros E; inversion E; subst.
  exists sz, p. repeat split; reflexivity.
Qed.

(** The [try] block on a page whose image has positive sides. *)
Lemma extract_page_image_try_pos (pdf : PDF) (page_number : Z)
    (page : Page) (img : Image) (max_width max_height : Q) :
  py_index (pages pdf) page_number = Ok page ->
  to_image_original page = Ok img ->
  (0 < img_width img)%Z -> (0 < img_height img)%Z ->
  0 < max_width -> 0 < max_height ->
  let W := inject_Z (img_width img) in
  let H := inject_Z (img_height img) in
  let s := py_min (max_width / W) (max_height / H) in
  extract_page_image_try pdf page_number max_width max_height =
  obind (resize img (Qfloor (W * s), Qfloor (H * s)))
    (fun img_resized =>
       Ok (img_resized, (Qfloor (W * s), Qfloor (H * s)),
           (page_width page, page_height page))).
Proof.
  intros Hpage Himg Hw Hh Hmw Hmh W H s.
  unfold extract_page_image_try. rewrite Hpage. simpl obind.
  rewrite Himg. simpl obind.
  rewrite (scale_factor_of_pos img max_width max_height Hw Hh). simpl obind.
  rewrite (int_W_s img max_width max_height Hw Hh Hmw Hmh).
  rewrite (int_H_s img max_width max_height Hw Hh Hmw Hmh).
  reflexivity.
Qed.

Lemma resize_ok (img : Image) (size : Z * Z) :
  resize_error img size = None ->
  exists img', resize img size = Ok img' /\
               img_width img' = fst size /\ img_height img' = snd size.
Proof.
  intros E. unfold resize. rewrite E. eexists. repeat split.
Qed.

Lemma resize_size (img img' : Image) (size : Z * Z) :
  resize img size = Ok img' ->
  img_width img' = fst size /\ img_height img' = snd size.
Proof.
  unfold resize. destruct (resize_error img size); intros E; inversion E.
  split; reflexivity.
Qed.

(** What a successful run says about the size, on a page whose image has
    positive sides. *)
Lemma extract_page_image_some_pos (pdf : PDF) (page_number : Z)
    (page : Page) (img : Image) (max_width max_height : Q)
    (t t' : trace) (img' : Image) (size : option (Z * Z))
    (pd : option (Q * Q)) :
  py_index (pages pdf) page_number = Ok page ->
  to_image_original page = Ok img ->
  (0 < img_width img)%Z -> (0 < img_height img)%Z ->
  0 < max_width -> 0 < max_height ->
  extract_page_image pdf page_number max_width max_height t
  = (Ok (Some img', size, pd), t') ->
  let W := inject_Z (img_width img) in
  let H := inject_Z (img_height img) in
  let s := py_min (max_width / W) (max_height / H) in
  size = Some (Qfloor (W * s), Qfloor (H * s)) /\
  img_width img' = Qfloor (W * s) /\ img_height img' = Qfloor (H * s).
Proof.
  intros Hpage Himg Hw Hh Hmw Hmh Hrun W H s.
  apply extract_page_image_some in Hrun.
  destruct Hrun as (sz & p & -> & -> & -> & Htry).
  rewrite (extract_page_image_try_pos pdf page_number page img
             max_width max_height Hpage Himg Hw Hh Hmw Hmh) in Htry.
  fold W H s in Htry.
  destruct (resize img (Qfloor (W * s), Qfloor (H * s))) as [r|e] eqn:Er;
    simpl in Htry; inversion Htry; subst.
  apply resize_size in Er. simpl in Er. destruct Er as [-> ->].
  repeat split.
Qed.

(* ----------------------------------------------------------------- *)
(** *** Claims on the rasterizer *)

(** C3, as stated, fails: on a 1001 x 1600 page with the default bounds
    the factor is 5/8, the scaled width is 625.625, the rasterizer returns
    a 625 x 1000 image, and rounding would give 626 x 1000.  Every step is
    exact in binary64 on this page, where the floats give 625 x 1000 too. *)
Lemma extract_page_image_not_rounded :
  py_min (800 / 1001) (1000 / 1600) == 5 # 8 /\
  (exists img_resized,
     extract_page_image tall_pdf 0 default_max_width default_max_height []
     = (Ok (Some img_resized, Some (625, 1000)%Z, Some (1001, 1600)), []%list)
     /\ img_width img_resized = 625%Z /\ img_height img_resized = 1000%Z) /\
  (spec_round (1001 * py_min (800 / 1001) (1000 / 1600)),
   spec_round (1600 * py_min (800 / 1001) (1000 / 1600))) = (626, 1000)%Z /\
  (625, 1000)%Z <>
  (spec_round (1001 * py_min (800 / 1001) (1000 / 1600)),
   spec_round (1600 * py_min (800 / 1001) (1000 / 1600))) /\
  Binary64.new_size 1001 1600 800 1000 = Ok (625, 1000)%Z /\
  (exists img_resized,
     Binary64.extract_page_image tall_pdf 0
       Binary64.default_max_width Binary64.default_max_height []
     = (Ok (Some img_resized, Some (625, 1000)%Z, Some (1001, 1600)),
        []%list)) /\
  (exists v,
     Binary64.value
       (PrimFloat.mul (Binary64.float_of_int 1001)
          (Binary64.py_min
             (PrimFloat.div Binary64.default_max_width
                (Binary64.float_of_int 1001))
             (PrimFloat.div Binary64.default_max_height
                (Binary64.float_of_int 1600))))
     = Some v /\ v == 5005 # 8 /\ spec_round v = 626%Z).
Proof.
  split; [reflexivity|].
  split; [eexists; repeat split|].
  split; [reflexivity|].
  split; [vm_compute; discriminate|].
  split; [vm_compute; reflexivity|].
  split; [eexists; vm_compute; reflexivity|].
  eexists. split; [vm_compute; reflexivity|].
  split; vm_compute; reflexivity.
Qed.



(** Two sides within one pixel of a rectangle proportional to [W : H] are
    themselves proportional to it up to one side length. *)
Lemma cross_bound (W H s a b : Q) :
  0 < W -> 0 < H ->
  W * s - 1 <= a -> a <= W * s ->
  H * s - 1 <= b -> b <= H * s ->
  - H <= a * H - b * W /\ a * H - b * W <= W.
Proof. intros HW HH Ha1 Ha2 Hb1 Hb2. split; nra. Qed.

Lemma cross_bound_Z (w h a b : Z) (s : Q) :
  (0 < w)%Z -> (0 < h)%Z ->
  inject_Z w * s - 1 <= inject_Z a -> inject_Z a <= inject_Z w * s ->
  inject_Z h * s - 1 <= inject_Z b -> inject_Z b <= inject_Z h * s ->
  (- h <= a * h - b * w <= w)%Z.
Proof.
  intros Hw Hh Ha1 Ha2 Hb1 Hb2.
  assert (HW : 0 < inject_Z w) by (rewrite <- (Zlt_Qlt 0); exact Hw).
  assert (HH : 0 < inject_Z h) by (rewrite <- (Zlt_Qlt 0); exact Hh).
  destruct (cross_bound _ _ s _ _ HW HH Ha1 Ha2 Hb1 Hb2) as [L U].
  split; rewrite Zle_Qle.
  - unfold Z.sub. rewrite inject_Z_opp, inject_Z_plus, inject_Z_opp,
      !inject_Z_mult. exact L.
  - unfold Z.sub. rewrite inject_Z_plus, inject_Z_opp, !inject_Z_mult.
    exact U.
Qed.

(** C5: on a page image with positive sides, the returned size is within
    one pixel, on each axis, of the rectangle [nativeW * s] by
    [nativeH * s] obtained with one factor [s > 0] for both axes, which has
    exactly the aspect ratio of the page image.  In integers: the cross
    products [new_width * nativeH] and [new_height * nativeW] differ by at
    most one side length. *)
Theorem extract_page_image_aspect_ratio (pdf : PDF) (page_number : Z)
    (page : Page) (img : Image) (max_width max_height : Q)
    (t t' : trace) (img_resized : Image) (new_width new_height : Z)
    (pd : option (Q * Q)) :
  py_index (pages pdf) page_number = Ok page ->
  to_image_original page = Ok img ->
  (0 < img_width img)%Z -> (0 < img_height img)%Z ->
  0 < max_width -> 0 < max_height ->
  extract_page_image pdf page_number max_width max_height t
  = (Ok (Some img_resized, Some (new_width, new_height), pd), t') ->
  let nativeW := inject_Z (img_width img) in
  let nativeH := inject_Z (img_height img) in
  (exists s : Q,
     0 < s /\
     (nativeW * s) * nativeH == (nativeH * s) * nativeW /\
     nativeW * s - 1 <= inject_Z (img_width img_resized) /\
     inject_Z (img_width img_resized) <= nativeW * s /\
     nativeH * s - 1 <= inject_Z (img_height img_resized) /\
     inject_Z (img_height img_resized) <= nativeH * s) /\
  (- img_height img
   <= img_width img_resized * img_height img
      - img_height img_resized * img_width img
   <= img_width img)%Z.
Proof.
  intros Hpage Himg Hw Hh Hmw Hmh Hrun W H.
  destruct (extract_page_image_some_pos pdf page_number page img
              max_width max_height t t' img_resized _ pd
              Hpage Himg Hw Hh Hmw Hmh Hrun) as (_ & Ew & Eh).
  fold W H in Ew, Eh.
  set (s := py_min (max_width / W) (max_height / H)) in *.
  assert (Bw := floor_within_one (W * s)).
  assert (Bh := floor_within_one (H * s)).
  rewrite <- Ew in Bw. rewrite <- Eh in Bh.
  destruct Bw as [Bw1 Bw2]. destruct Bh as [Bh1 Bh2].
  split.
  - exists s. split; [apply s_pos; assumption|].
    split; [ring|]. repeat split; assumption.
  - apply cross_bound_Z with (s := s); assumption.
Qed.

Lemma extract_page_image_aspect_ratio_witness :
  (exists s : Q,
     0 < s /\
     (1001 * s) * 1600 == (1600 * s) * 1001 /\
     1001 * s - 1 <= 625 /\ 625 <= 1001 * s /\
     1600 * s - 1 <= 1000 /\ 1000 <= 1600 * s) /\
  (- 1600 <= 625 * 1600 - 1000 * 1001 <= 1001)%Z.
Proof.
  apply (extract_page_image_aspect_ratio tall_pdf 0
           (sample_page 1001 1600 no_text) (sample_image 1001 1600)
           default_max_width default_max_height [] []
           (sample_image 625 1000) 625 1000 (Some (1001, 1600)));
    reflexivity.
Defined.

(* ----------------------------------------------------------------- *)
(** *** Strings *)

Lemma append_nil_r (s : string) : s ++ "" = s.
Proof. induction s as [|c s IH]; simpl; [reflexivity | now rewrite IH]. Qed.

Lemma append_assoc (a b c : string) : (a ++ b) ++ c = a ++ (b ++ c).
Proof. induction a as [|x a IH]; simpl; [reflexivity | now rewrite IH]. Qed.

Lemma page_section_start (n : Z) (t : string) :
  page_section n t = header_start ++ (str_int n ++ " ---" ++ nl ++ t).
Proof. reflexivity. Qed.

Lemma str_truthy_false (s : string) : str_truthy s = false <-> s = "".
Proof. destruct s; simpl; split; congruence. Qed.

Lemma lstrip_all_space (s : string) : all_space s = true -> lstrip s = "".
Proof.
  induction s as [|c s IH]; simpl; [reflexivity|].
  destruct (is_space c); simpl; [exact IH | discriminate].
Qed.

Lemma rstrip_nonempty (s : string) : all_space s = false -> rstrip s <> "".
Proof.
  induction s as [|c s IH]; simpl; [discriminate|].
  destruct (is_space c); simpl.
  - intros E. specialize (IH E). destruct (rstrip s); congruence.
  - intros _. destruct (rstrip s); discriminate.
Qed.

Lemma lstrip_keeps_nonspace (s : string) :
  all_space s = false -> all_space (lstrip s) = false.
Proof.
  induction s as [|c s IH]; simpl; [discriminate|].
  destruct (is_space c) eqn:E; simpl; [exact IH|].
  intros _. now rewrite E.
Qed.

(** Trimming leaves nothing exactly when the string is all whitespace. *)
Lemma strip_empty_iff (s : string) : strip s = "" <-> all_space s = true.
Proof.
  split.
  - intros E. destruct (all_space s) eqn:A; [reflexivity|].
    exfalso. apply (rstrip_nonempty (lstrip s)); [|exact E].
    now apply lstrip_keeps_nonspace.
  - intros A. unfold strip. now rewrite lstrip_all_space.
Qed.

(* ----------------------------------------------------------------- *)
(** *** The extraction loop *)

(** The loop on pages that do not raise: the accumulator followed by the
    parts of the numbered pages. *)
Lemma extract_text_loop_spec (b : bbox) (ps : list Page) :
  forall (ys : list yield) (n : Z) (acc : string),
    map (fun p => within_bbox_extract_text p b) ps = map Ok ys ->
    extract_text_loop ps n b acc
    = Ok (acc ++ join (map spec_page_part (enumerate ys n))).
Proof.
  induction ps as [|p ps IH]; intros ys n acc E.
  - destruct ys; [|discriminate]. simpl. now rewrite append_nil_r.
  - destruct ys as [|y ys]; [discriminate|].
    simpl in E. injection E as Ep Eps.
    simpl. rewrite Ep. simpl obind.
    rewrite (IH ys (n + 1)%Z _ Eps). f_equal.
    destruct y as [[|c t]|]; simpl str_truthy; cbv iota.
    + reflexivity.
    + rewrite append_assoc. reflexivity.
    + reflexivity.
Qed.

(** The first page that raises ends the loop with its exception. *)
Lemma extract_text_loop_raise (b : bbox) (ps : list Page) :
  forall (ys : list yield) (p : Page) (rest : list Page) (e : exn)
         (n : Z) (acc : string),
    ps = (firstn (List.length ys) ps ++ p :: rest)%list ->
    map (fun q => within_bbox_extract_text q b) (firstn (List.length ys) ps)
    = map Ok ys ->
    within_bbox_extract_text p b = Raise e ->
    extract_text_loop ps n b acc = Raise e.
Proof.
  induction ps as [|q ps IH]; intros ys p rest e n acc Hsplit Hok Hraise.
  - destruct ys; simpl in Hsplit; discriminate.
  - destruct ys as [|y ys]; simpl in Hsplit, Hok.
    + injection Hsplit as -> _. simpl. now rewrite Hraise.
    + injection Hsplit as Hsplit. injection Hok as Hq Hok.
      simpl. rewrite Hq. simpl obind.
      eapply IH; eassumption.
Qed.

(** The result is the accumulator when no page yields text, and the
    accumulator followed by a header otherwise. *)
Lemma extract_text_loop_start (b : bbox) (ps : list Page) :
  forall (n : Z) (acc s : string),
    extract_text_loop ps n b acc = Ok s ->
    (existsb (yields_text b) ps = false /\ s = acc) \/
    (existsb (yields_text b) ps = true /\
     exists rest, s = acc ++ header_start ++ rest).
Proof.
  induction ps as [|p ps IH]; intros n acc s E; simpl in E.
  - left. split; [reflexivity | congruence].
  - simpl existsb. unfold yields_text at 1 3.
    destruct (within_bbox_extract_text p b) as [[t|]|e]; simpl in E;
      try discriminate.
    + destruct (str_truthy t) eqn:T; simpl orb.
      * right. split; [reflexivity|].
        destruct (IH _ _ _ E) as [[_ ->] | [_ [rest ->]]].
        -- eexists. rewrite page_section_start. reflexivity.
        -- eexists. rewrite page_section_start, !append_assoc.
           reflexivity.
      * exact (IH _ _ _ E).
    + simpl orb. exact (IH _ _ _ E).
Qed.

(** A header is not blank, so a result is blank only when it is empty:
    the script reports [No text found] exactly when no page yields text. *)
Lemma extract_text_blank_iff_empty (pdf : PDF) (b : bbox) (s : string) :
  extract_text_from_pdf pdf b = Ok s ->
  (strip s = "" <-> s = "") /\
  (strip s = "" <-> existsb (yields_text b) (pages pdf) = false).
Proof.
  intros E. unfold extract_text_from_pdf in E.
  destruct (extract_text_loop_start b (pages pdf) 1 "" s E)
    as [[Hno ->] | [Hyes [rest ->]]].
  - repeat split; auto.
  - assert (Hs : strip ("" ++ header_start ++ rest) <> "").
    { intros Hs. apply strip_empty_iff in Hs. discriminate Hs. }
    repeat split; intros Hx; try contradiction; try discriminate.
    rewrite Hyes in Hx. discriminate.
Qed.

(* ----------------------------------------------------------------- *)
(** *** Claims on the region text extractor *)

(** C2: on a document whose pages each yield text or nothing for the
    region, [extract_text_from_pdf] returns the concatenation, in page
    order and with the numbering starting at 1, of one part per page:
    nothing for a page without text (no header), and the header
    [\n\n--- Page N ---\n] immediately followed by the text for a page
    with text. *)
Theorem extract_text_from_pdf_pages (pdf : PDF) (b : bbox)
    (ys : list yield) :
  map (fun p => within_bbox_extract_text p b) (pages pdf) = map Ok ys ->
  extract_text_from_pdf pdf b
  = Ok (join (map spec_page_part (enumerate ys 1))).
Proof.
  intros E. unfold extract_text_from_pdf.
  rewrite (extract_text_loop_spec b (pages pdf) ys 1 "" E).
  reflexivity.
Qed.

Lemma extract_text_from_pdf_pages_witness :
  extract_text_from_pdf two_page_pdf (0, 0, 100, 100)
  = Ok (nl ++ nl ++ "--- Page 2 ---" ++ nl ++ "hello").
Proof.
  apply (extract_text_from_pdf_pages two_page_pdf (0, 0, 100, 100)
           [None; Some "hello"]).
  reflexivity.
Defined.

(** C10: a string returned by [extract_text_from_pdf] is empty when no
    page yields text (so for a document without pages), and begins with
    the two line feeds and [--- Page ] of a header otherwise. *)
Theorem extract_text_from_pdf_empty_or_header (pdf : PDF) (b : bbox)
    (s : string) :
  extract_text_from_pdf pdf b = Ok s ->
  ((existsb (yields_text b) (pages pdf) = false /\ s = "") \/
   (existsb (yields_text b) (pages pdf) = true /\
    exists rest, s = nl ++ nl ++ "--- Page " ++ rest)) /\
  (pages pdf = [] -> s = "").
Proof.
  intros E. unfold extract_text_from_pdf in E. split.
  - exact (extract_text_loop_start b (pages pdf) 1 "" s E).
  - intros Hnil. rewrite Hnil in E. simpl in E. congruence.
Qed.

Lemma extract_text_from_pdf_empty_or_header_witness :
  ((existsb (yields_text (0, 0, 100, 100)) (pages two_page_pdf) = false /\
    nl ++ nl ++ "--- Page 2 ---" ++ nl ++ "hello" = "") \/
   (existsb (yields_text (0, 0, 100, 100)) (pages two_page_pdf) = true /\
    exists rest,
      nl ++ nl ++ "--- Page 2 ---" ++ nl ++ "hello"
      = nl ++ nl ++ "--- Page " ++ rest)) /\
  (pages two_page_pdf = [] ->
   nl ++ nl ++ "--- Page 2 ---" ++ nl ++ "hello" = "").
Proof.
  apply (extract_text_from_pdf_empty_or_header two_page_pdf
           (0, 0, 100, 100)).
  reflexivity.
Defined.

(* ----------------------------------------------------------------- *)
(** *** Runs of the script *)

Section Runs.

Variable pdfplumber_open : UploadedFile -> outcome PDF.

Lemma load_pdf_run (f : UploadedFile) (t : trace) :
  load_pdf pdfplumber_open f t =
  match pdfplumber_open f with
  | Ok pdf => (Ok (Some pdf), t)
  | Raise e =>
      (Ok None, (t ++ [St_error ("Failed to load PDF: " ++ exn_str e)])%list)
  end.
Proof.
  unfold load_pdf, try_except, bind, lift, ret, emit.
  destruct (pdfplumber_open f); reflexivity.
Qed.

Lemma main_show_text_run (text : string) (t : trace) :
  main_show_text text t =
  (Ok tt,
   (t ++ if str_truthy (strip text)
         then [St_write "Extracted Text";
               St_text_area "Text from the selected area:" text 300;
               St_download_button "Download Extracted Text" text
                 "extracted_text.txt" "text/plain"]
         else [St_warning
                 "No text found in the selected area across all pages."])%list).
Proof.
  unfold main_show_text, bind, emit.
  destruct (str_truthy (strip text)); [|reflexivity].
  rewrite <- !app_assoc. reflexivity.
Qed.

(** A run that reaches the extraction. *)
Lemma main_reaches_extraction (s : Session) (f : UploadedFile) (pdf : PDF)
    (selected : Z) (img : Image) (width height : Z) (pd : Q * Q)
    (o : CanvasObject) (objects : list CanvasObject) (scaled_bbox : bbox)
    (t : trace) :
  uploaded s = Some f ->
  pdfplumber_open f = Ok pdf ->
  slider s 1%Z (Z.of_nat (List.length (pages pdf))) 1%Z = Ok selected ->
  extract_page_image_try pdf (selected - 1)
    default_max_width default_max_height = Ok (img, (width, height), pd) ->
  json_data s = Some (o :: objects) ->
  scale_bbox_to_pdf (corners (last objects o))
    (inject_Z width, inject_Z height) pd = Ok scaled_bbox ->
  main pdfplumber_open s t =
  bind (lift (extract_text_from_pdf pdf scaled_bbox)) main_show_text
    (t ++ shown_before_extraction pdf selected img width height
            (last objects o))%list.
Proof.
  intros Hup Hopen Hsl Hpage Hjson Hscale.
  unfold main. unfold bind at 1 2 3 4. unfold emit at 1 2 3 4.
  rewrite Hup. unfold bind at 1, calling. unfold bind at 1, emit at 1.
  rewrite load_pdf_run, Hopen.
  unfold main_with_pdf. unfold bind at 1 2, emit at 1, lift at 1.
  rewrite Hsl. unfold bind at 1, calling. unfold bind at 1, emit at 1.
  rewrite extract_page_image_run, Hpage.
  unfold bind at 1 2, emit at 1, lift at 1, not_none at 1.
  unfold bind at 1, emit at 1.
  rewrite Hjson. unfold main_process_bbox.
  unfold bind at 1 2 3, emit at 1 2, calling at 1.
  unfold bind at 1 2 3, emit at 1, lift at 1 2 3, not_none.
  fold (corners (last objects o)). rewrite Hscale.
  unfold bind at 1, emit at 1, calling. unfold bind at 1 2, emit at 1.
  unfold bind, lift. unfold shown_before_extraction, main_heading.
  rewrite <- !app_assoc. reflexivity.
Qed.

End Runs.

(* ----------------------------------------------------------------- *)
(** *** Claims on the script *)

(** C6: in a run that reaches the extraction, a result that is empty
    after trimming ends the run normally with the warning
    [No text found in the selected area across all pages.] and without any
    error notice; a result that is not empty after trimming is shown in the
    text area and offered for download as [extracted_text.txt]; and an
    extraction that raises ends the run with that exception, with neither
    the warning nor a result on the page. *)
Theorem main_no_text_is_warning
    (pdfplumber_open : UploadedFile -> outcome PDF)
    (s : Session) (f : UploadedFile) (pdf : PDF)
    (selected : Z) (img : Image) (width height : Z) (pd : Q * Q)
    (o : CanvasObject) (objects : list CanvasObject) (scaled_bbox : bbox)
    (t : trace) :
  uploaded s = Some f ->
  pdfplumber_open f = Ok pdf ->
  slider s 1%Z (Z.of_nat (List.length (pages pdf))) 1%Z = Ok selected ->
  extract_page_image_try pdf (selected - 1)
    default_max_width default_max_height = Ok (img, (width, height), pd) ->
  json_data s = Some (o :: objects) ->
  scale_bbox_to_pdf (corners (last objects o))
    (inject_Z width, inject_Z height) pd = Ok scaled_bbox ->
  let shown :=
    shown_before_extraction pdf selected img width height (last objects o) in
  forallb (fun e => negb (is_error e) && negb (is_warning e)) shown = true /\
  match extract_text_from_pdf pdf scaled_bbox with
  | Ok extracted_text =>
      if str_truthy (strip extracted_text)
      then
        main pdfplumber_open s t =
        (Ok tt,
         (t ++ shown ++
          [St_write "Extracted Text";
           St_text_area "Text from the selected area:" extracted_text 300;
           St_download_button "Download Extracted Text" extracted_text
             "extracted_text.txt" "text/plain"])%list)
      else
        main pdfplumber_open s t =
        (Ok tt,
         (t ++ shown ++
          [St_warning
             "No text found in the selected area across all pages."])%list)
  | Raise e =>
      main pdfplumber_open s t = (Raise e, (t ++ shown)%list)
  end.
Proof.
  intros Hup Hopen Hsl Hpage Hjson Hscale shown.
  split; [reflexivity|].
  rewrite (main_reaches_extraction pdfplumber_open s f pdf selected img
             width height pd o objects scaled_bbox t
             Hup Hopen Hsl Hpage Hjson Hscale).
  fold shown. unfold bind, lift.
  destruct (extract_text_from_pdf pdf scaled_bbox) as [text|e];
    [|reflexivity].
  rewrite main_show_text_run.
  destruct (str_truthy (strip text)); rewrite <- app_assoc; reflexivity.
Qed.

Lemma main_no_text_is_warning_witness :
  forallb (fun e => negb (is_error e) && negb (is_warning e))
    (shown_before_extraction blank_pdf 1 (sample_image 750 1000) 750 1000
       sample_rect) = true /\
  main (fun _ => Ok blank_pdf) sample_session [] =
  (Ok tt,
   (shown_before_extraction blank_pdf 1 (sample_image 750 1000) 750 1000
      sample_rect ++
    [St_warning
       "No text found in the selected area across all pages."])%list).
Proof.
  apply (main_no_text_is_warning (fun _ => Ok blank_pdf) sample_session
           [] blank_pdf 1 (sample_image 750 1000) 750 1000 (600, 800)
           sample_rect []
           (100 * (600 / 750), 100 * (800 / 1000),
            (100 + 200) * (600 / 750), (100 + 100) * (800 / 1000)) []);
    reflexivity.
Defined.

(** C7: when [pdfplumber.open] raises on the upload, [load_pdf] puts the
    message [Failed to load PDF: ...] on the page and returns [None]; the
    run of [main] then only adds [Invalid PDF file. Please try again.] and
    ends: it calls neither [extract_page_image] nor
    [extract_text_from_pdf]. *)
Theorem main_invalid_upload
    (pdfplumber_open : UploadedFile -> outcome PDF)
    (s : Session) (f : UploadedFile) (e : exn) (t : trace) :
  uploaded s = Some f ->
  pdfplumber_open f = Raise e ->
  let run :=
    [Call Fn_load_pdf;
     St_error ("Failed to load PDF: " ++ exn_str e);
     St_error "Invalid PDF file. Please try again."]%list in
  load_pdf pdfplumber_open f t
  = (Ok None, (t ++ [St_error ("Failed to load PDF: " ++ exn_str e)])%list) /\
  main pdfplumber_open s t = (Ok tt, (t ++ main_heading ++ run)%list) /\
  ~ In (Call Fn_extract_page_image) (main_heading ++ run) /\
  ~ In (Call Fn_extract_text_from_pdf) (main_heading ++ run).
Proof.
  intros Hup Hopen run.
  split; [rewrite load_pdf_run, Hopen; reflexivity|].
  split.
  - unfold main. unfold bind at 1 2 3 4. unfold emit at 1 2 3 4.
    rewrite Hup. unfold bind at 1, calling. unfold bind at 1, emit at 1.
    rewrite load_pdf_run, Hopen. unfold emit.
    unfold main_heading, run. rewrite <- !app_assoc. reflexivity.
  - split; intros Hin; simpl in Hin;
      repeat (destruct Hin as [Hin | Hin]; [discriminate|]);
      exact Hin.
Qed.

Lemma main_invalid_upload_witness :
  load_pdf (fun _ => Raise (LibraryError "No /Root object!")) [] []
  = (Ok None, [St_error "Failed to load PDF: No /Root object!"]) /\
  main (fun _ => Raise (LibraryError "No /Root object!")) sample_session []
  = (Ok tt,
     (main_heading ++
      [Call Fn_load_pdf;
       St_error "Failed to load PDF: No /Root object!";
       St_error "Invalid PDF file. Please try again."])%list) /\
  ~ In (Call Fn_extract_page_image)
      (main_heading ++
       [Call Fn_load_pdf;
        St_error "Failed to load PDF: No /Root object!";
        St_error "Invalid PDF file. Please try again."]) /\
  ~ In (Call Fn_extract_text_from_pdf)
      (main_heading ++
       [Call Fn_load_pdf;
        St_error "Failed to load PDF: No /Root object!";
        St_error "Invalid PDF file. Please try again."]).
Proof.
  apply (main_invalid_upload
           (fun _ => Raise (LibraryError "No /Root object!"))
           sample_session [] (LibraryError "No /Root object!") []);
    reflexivity.
Defined.

(* ----------------------------------------------------------------- *)
(** *** Sample runs *)

(** Without an upload the script only asks for one. *)
Example main_without_upload (open : UploadedFile -> outcome PDF) :
  main open {| uploaded := None;
               slider := fun _ _ value => Ok value;
               json_data := None |} []
  = (Ok tt,
     (main_heading ++
      [St_info "Upload a PDF file to start extracting text."])%list).
Proof. reflexivity. Qed.

(** Two pages, text on the second only: one header, for page 2. *)
Example main_two_pages :
  main (fun _ => Ok two_page_pdf) sample_session []
  = (Ok tt,
     (shown_before_extraction two_page_pdf 1 (sample_image 750 1000)
        750 1000 sample_rect ++
      [St_write "Extracted Text";
       St_text_area "Text from the selected area:"
         (nl ++ nl ++ "--- Page 2 ---" ++ nl ++ "hello") 300;
       St_download_button "Download Extracted Text"
         (nl ++ nl ++ "--- Page 2 ---" ++ nl ++ "hello")
         "extracted_text.txt" "text/plain"])%list).
Proof. reflexivity. Qed.

(** A page whose text is one space still gets its header: the result is
    not blank and is shown. *)
Example extract_text_space_page :
  extract_text_from_pdf space_pdf (0, 0, 100, 100)
  = Ok (nl ++ nl ++ "--- Page 1 ---" ++ nl ++ " ") /\
  str_truthy (strip (nl ++ nl ++ "--- Page 1 ---" ++ nl ++ " ")) = true.
Proof. split; reflexivity. Qed.

(** When the library rejects the rectangle the exception leaves [main]:
    the run stops after the spinner, with no warning and no result. *)
Example main_extraction_raises :
  main (fun _ => Ok failing_pdf) sample_session []
  = (Raise (LibraryError
       "Bounding box is not fully within parent page bounding box"),
     shown_before_extraction failing_pdf 1 (sample_image 750 1000)
       750 1000 sample_rect).
Proof. reflexivity. Qed.

(** A page index past the end is reported by [extract_page_image]. *)
Example extract_page_image_index_error :
  extract_page_image small_pdf 1 default_max_width default_max_height []
  = (Ok (None, None, None),
     [St_error "Error processing page image: list index out of range"]).
Proof. reflexivity. Qed.

(** [pages[-1]] is the last page. *)
Example py_index_negative :
  py_index (pages two_page_pdf) (-1)
  = Ok (sample_page 600 800 (fixed_text "hello")).
Proof. reflexivity. Qed.

(* ----------------------------------------------------------------- *)
(** *** Binary64 against the rational model *)

(** On a 612 x 792 page the float product [792 * (1000 / 792)] falls just
    below 1000: the interpreter returns 772 x 999 where exact arithmetic
    gives 772 x 1000. *)
Example binary64_letter_page :
  Binary64.new_size 612 792 800 1000 = Ok (772, 999)%Z /\
  (Qfloor (612 * py_min (800 / 612) (1000 / 792)),
   Qfloor (792 * py_min (800 / 612) (1000 / 792))) = (772, 1000)%Z.
Proof. split; vm_compute; reflexivity. Qed.

(* ================================================================= *)
(** * Further properties of the code *)

(* ----------------------------------------------------------------- *)
(** *** The coordinate mapper: failure, bounds, composition *)

Lemma py_div_raise (a b : Q) (e : exn) :
  py_div a b = Raise e -> e = ZeroDivisionError /\ b == 0.
Proof.
  unfold py_div. destruct (Qeq_bool b 0) eqn:E; [|discriminate].
  intros R. injection R as <-. split; [reflexivity|].
  now apply Qeq_bool_iff.
Qed.

Lemma scale_bbox_raise_zero (b : bbox) (cw ch pw ph : Q) (e : exn) :
  scale_bbox_to_pdf b (cw, ch) (pw, ph) = Raise e ->
  e = ZeroDivisionError /\ (cw == 0 \/ ch == 0).
Proof.
  unfold scale_bbox_to_pdf.
  destruct (py_div pw cw) as [sx|e1] eqn:E1; simpl obind.
  - destruct (py_div ph ch) as [sy|e2] eqn:E2; simpl obind.
    + destruct b as [[[x0 y0] x1] y1]. discriminate.
    + intros R. injection R as <-.
      destruct (py_div_raise _ _ _ E2) as [-> Hz]. auto.
  - intros R. injection R as <-.
    destruct (py_div_raise _ _ _ E1) as [-> Hz]. auto.
Qed.

(** X1: [scale_bbox_to_pdf] raises exactly when a canvas dimension is
    zero, whatever the rectangle and the page size, and then the exception
    is [ZeroDivisionError]. *)
Theorem scale_bbox_to_pdf_raises_iff (b : bbox) (cw ch pw ph : Q) :
  (scale_bbox_to_pdf b (cw, ch) (pw, ph) = Raise ZeroDivisionError
   <-> cw == 0 \/ ch == 0) /\
  (forall e, scale_bbox_to_pdf b (cw, ch) (pw, ph) = Raise e ->
             e = ZeroDivisionError).
Proof.
  assert (Hcases :
    forall e, scale_bbox_to_pdf b (cw, ch) (pw, ph) = Raise e ->
              e = ZeroDivisionError /\ (cw == 0 \/ ch == 0))
    by (intros e; apply scale_bbox_raise_zero).
  split; [split|].
  - intros R. exact (proj2 (Hcases _ R)).
  - intros [Hz | Hz].
    + now apply scale_bbox_to_pdf_zero_width.
    + now apply scale_bbox_to_pdf_zero_height.
  - intros e R. exact (proj1 (Hcases _ R)).
Qed.

(** X3: with a canvas of the size of the page (equal, non-zero
    dimensions) the mapper returns the rectangle unchanged. *)
Theorem scale_bbox_identity (x0 y0 x1 y1 w h : Q) :
  ~ w == 0 -> ~ h == 0 ->
  exists R',
    scale_bbox_to_pdf (x0, y0, x1, y1) (w, h) (w, h) = Ok R' /\
    bbox_eq R' (x0, y0, x1, y1).
Proof.
  intros Hw Hh. eexists.
  split; [apply scale_bbox_to_pdf_ok; assumption|].
  unfold bbox_eq. repeat split; field; assumption.
Qed.

Lemma scale_bbox_identity_witness :
  exists R',
    scale_bbox_to_pdf (100, 100, 300, 200) (750, 1000) (750, 1000) = Ok R' /\
    bbox_eq R' (100, 100, 300, 200).
Proof.
  apply (scale_bbox_identity 100 100 300 200 750 1000);
    intro H; vm_compute in H; discriminate.
Defined.

(* ----------------------------------------------------------------- *)
(** *** The rasterizer: failures and the size it picks *)

Lemma py_index_out_of_range {A : Type} (l : list A) (i : Z) :
  (i < - Z.of_nat (List.length l) \/ Z.of_nat (List.length l) <= i)%Z ->
  py_index l i = Raise IndexError.
Proof.
  intros Hi. unfold py_index.
  destruct (Z.ltb_spec i 0) as [Hneg|Hpos].
  - destruct (Z.ltb_spec (i + Z.of_nat (List.length l)) 0) as [_|Hge];
      [reflexivity | lia].
  - destruct (Z.ltb_spec i 0) as [|_]; [lia|].
    destruct (nth_error l (Z.to_nat i)) eqn:E; [|reflexivity].
    exfalso. assert (Hlt : (Z.to_nat i < List.length l)%nat).
    { apply nth_error_Some. congruence. }
    lia.
Qed.

Lemma py_index_in_range {A : Type} (l : list A) (i : Z) :
  (0 <= i < Z.of_nat (List.length l))%Z ->
  exists a, nth_error l (Z.to_nat i) = Some a /\ py_index l i = Ok a.
Proof.
  intros Hi. unfold py_index.
  destruct (Z.ltb_spec i 0) as [|_]; [lia|].
  destruct (Z.ltb_spec i 0) as [|_]; [lia|].
  destruct (nth_error l (Z.to_nat i)) as [a|] eqn:E.
  - exists a. split; reflexivity.
  - exfalso. apply nth_error_None in E. lia.
Qed.




Lemma scale_factor_of_zero (img : Image) (mw mh : Q) :
  (img_width img = 0 \/ img_height img = 0)%Z ->
  scale_factor_of img mw mh = Raise ZeroDivisionError.
Proof.
  intros Hz. unfold scale_factor_of, py_div.
  destruct (Qeq_bool (inject_Z (img_width img)) 0) eqn:Ew; [reflexivity|].
  destruct Hz as [Hz|Hz].
  - rewrite Hz in Ew. discriminate.
  - rewrite Hz. reflexivity.
Qed.


(** X6: with the default bounds of the signature (the ints 800 and
    1000, as [main] calls it), a page whose image has a zero side is
    reported, not raised: the function returns three [None] after the
    notice [Error processing page image: division by zero]. *)
Theorem extract_page_image_zero_side (pdf : PDF) (page_number : Z)
    (page : Page) (img : Image) (t : trace) :
  py_index (pages pdf) page_number = Ok page ->
  to_image_original page = Ok img ->
  (img_width img = 0 \/ img_height img = 0)%Z ->
  extract_page_image pdf page_number default_max_width default_max_height t
  = (Ok (None, None, None),
     (t ++ [St_error "Error processing page image: division by zero"])%list).
Proof.
  intros Hpage Himg Hz. rewrite extract_page_image_run.
  unfold extract_page_image_try. rewrite Hpage. simpl obind.
  rewrite Himg. simpl obind.
  rewrite (scale_factor_of_zero img default_max_width default_max_height Hz).
  reflexivity.
Qed.

Lemma extract_page_image_zero_side_witness :
  extract_page_image {| pages := [sample_page 0 800 no_text] |} 0
    default_max_width default_max_height []
  = (Ok (None, None, None),
     [St_error "Error processing page image: division by zero"]).
Proof.
  apply (extract_page_image_zero_side
           {| pages := [sample_page 0 800 no_text] |} 0
           (sample_page 0 800 no_text) (sample_image 0 800) []);
    [reflexivity | reflexivity | left; reflexivity].
Defined.

(** X7: a page index outside [-len, len) is reported, not raised: three
    [None] after [Error processing page image: list index out of range].
    An index in [0, len) selects that page and one in [-len, 0) counts from
    the end, so neither fails on the index. *)
Theorem extract_page_image_index (pdf : PDF) (page_number : Z)
    (max_width max_height : Q) (t : trace) :
  let len := Z.of_nat (List.length (pages pdf)) in
  ((page_number < - len \/ len <= page_number)%Z ->
   extract_page_image pdf page_number max_width max_height t
   = (Ok (None, None, None),
      (t ++ [St_error
               "Error processing page image: list index out of range"])%list))
  /\
  ((0 <= page_number < len)%Z ->
   exists page,
     nth_error (pages pdf) (Z.to_nat page_number) = Some page /\
     py_index (pages pdf) page_number = Ok page) /\
  ((- len <= page_number < 0)%Z ->
   exists page,
     nth_error (pages pdf) (Z.to_nat (len + page_number)) = Some page /\
     py_index (pages pdf) page_number = Ok page).
Proof.
  intros len. split; [|split].
  - intros Hout. rewrite extract_page_image_run.
    unfold extract_page_image_try.
    rewrite (py_index_out_of_range (pages pdf) page_number Hout).
    reflexivity.
  - intros Hin. apply py_index_in_range. exact Hin.
  - intros Hneg. unfold py_index. fold len.
    destruct (Z.ltb_spec page_number 0) as [_|]; [|lia].
    destruct (Z.ltb_spec (page_number + len) 0) as [|_]; [lia|].
    rewrite (Z.add_comm page_number len).
    destruct (nth_error (pages pdf) (Z.to_nat (len + page_number)))
      as [a|] eqn:E.
    + exists a. split; reflexivity.
    + exfalso. apply nth_error_None in E. unfold len in *. lia.
Qed.

Lemma py_min_mono (a b a' b' : Q) :
  a <= a' -> b <= b' -> py_min a b <= py_min a' b'.
Proof.
  intros Ha Hb.
  destruct (py_min_cases a' b') as [-> | ->].
  - apply Qle_trans with a; [apply py_min_le_l | exact Ha].
  - apply Qle_trans with b; [apply py_min_le_r | exact Hb].
Qed.

Lemma div_mono_l (a a' c : Q) : 0 < c -> a <= a' -> a / c <= a' / c.
Proof.
  intros Hc Ha. unfold Qdiv.
  apply Qmult_le_compat_r; [exact Ha|].
  apply Qlt_le_weak, Qinv_lt_0_compat, Hc.
Qed.

(** X8: the returned image fills the envelope on one axis to within a
    pixel: its width is at least [max_width - 1] or its height is at least
    [max_height - 1] (page image with positive sides, positive bounds). *)
Theorem extract_page_image_fills_envelope (pdf : PDF) (page_number : Z)
    (page : Page) (img : Image) (max_width max_height : Q)
    (t t' : trace) (img_resized : Image) (new_width new_height : Z)
    (pd : option (Q * Q)) :
  py_index (pages pdf) page_number = Ok page ->
  to_image_original page = Ok img ->
  (0 < img_width img)%Z -> (0 < img_height img)%Z ->
  0 < max_width -> 0 < max_height ->
  extract_page_image pdf page_number max_width max_height t
  = (Ok (Some img_resized, Some (new_width, new_height), pd), t') ->
  max_width - 1 <= inject_Z new_width \/
  max_height - 1 <= inject_Z new_height.
Proof.
  intros Hpage Himg Hw Hh Hmw Hmh Hrun.
  destruct (extract_page_image_some_pos pdf page_number page img
              max_width max_height t t' img_resized _ pd
              Hpage Himg Hw Hh Hmw Hmh Hrun) as (Es & _ & _).
  set (W := inject_Z (img_width img)) in *.
  set (H := inject_Z (img_height img)) in *.
  assert (HW : 0 < W) by (apply W_pos; assumption).
  assert (HH : 0 < H) by (apply H_pos; assumption).
  set (s := py_min (max_width / W) (max_height / H)) in *.
  assert (Enw : new_width = Qfloor (W * s)) by congruence.
  assert (Enh : new_height = Qfloor (H * s)) by congruence.
  destruct (py_min_cases (max_width / W) (max_height / H)) as [Es1 | Es1];
    fold s in Es1.
  - left. rewrite Enw.
    apply Qle_trans with (W * s - 1); [|apply floor_within_one].
    rewrite Es1, Qmult_div_r; [apply Qle_refl | now apply pos_nonzero].
  - right. rewrite Enh.
    apply Qle_trans with (H * s - 1); [|apply floor_within_one].
    rewrite Es1, Qmult_div_r; [apply Qle_refl | now apply pos_nonzero].
Qed.

Lemma extract_page_image_fills_envelope_witness :
  default_max_width - 1 <= inject_Z 625 \/
  default_max_height - 1 <= inject_Z 1000.
Proof.
  apply (extract_page_image_fills_envelope tall_pdf 0
           (sample_page 1001 1600 no_text) (sample_image 1001 1600)
           default_max_width default_max_height [] []
           (sample_image 625 1000) 625 1000 (Some (1001, 1600)));
    reflexivity.
Defined.

(** X9: a larger envelope never gives a smaller image: when both bounds
    grow, neither side of the returned size shrinks. *)
Theorem extract_page_image_monotone (pdf : PDF) (page_number : Z)
    (page : Page) (img : Image) (mw mh mw' mh' : Q)
    (t1 t1' t2 t2' : trace) (r1 r2 : Image) (w1 h1 w2 h2 : Z)
    (pd1 pd2 : option (Q * Q)) :
  py_index (pages pdf) page_number = Ok page ->
  to_image_original page = Ok img ->
  (0 < img_width img)%Z -> (0 < img_height img)%Z ->
  0 < mw -> 0 < mh -> mw <= mw' -> mh <= mh' ->
  extract_page_image pdf page_number mw mh t1
  = (Ok (Some r1, Some (w1, h1), pd1), t1') ->
  extract_page_image pdf page_number mw' mh' t2
  = (Ok (Some r2, Some (w2, h2), pd2), t2') ->
  (w1 <= w2)%Z /\ (h1 <= h2)%Z.
Proof.
  intros Hpage Himg Hw Hh Hmw Hmh Hle_w Hle_h Hrun1 Hrun2.
  assert (Hmw' : 0 < mw') by (apply Qlt_le_trans with mw; assumption).
  assert (Hmh' : 0 < mh') by (apply Qlt_le_trans with mh; assumption).
  destruct (extract_page_image_some_pos pdf page_number page img
              mw mh t1 t1' r1 _ pd1
              Hpage Himg Hw Hh Hmw Hmh Hrun1) as (Es1 & _ & _).
  destruct (extract_page_image_some_pos pdf page_number page img
              mw' mh' t2 t2' r2 _ pd2
              Hpage Himg Hw Hh Hmw' Hmh' Hrun2) as (Es2 & _ & _).
  set (W := inject_Z (img_width img)) in *.
  set (H := inject_Z (img_height img)) in *.
  assert (HW : 0 < W) by (apply W_pos; assumption).
  assert (HH : 0 < H) by (apply H_pos; assumption).
  set (s1 := py_min (mw / W) (mh / H)) in *.
  set (s2 := py_min (mw' / W) (mh' / H)) in *.
  assert (Hs : s1 <= s2)
    by (apply py_min_mono; apply div_mono_l; assumption).
  assert (E1w : w1 = Qfloor (W * s1)) by congruence.
  assert (E1h : h1 = Qfloor (H * s1)) by congruence.
  assert (E2w : w2 = Qfloor (W * s2)) by congruence.
  assert (E2h : h2 = Qfloor (H * s2)) by congruence.
  rewrite E1w, E1h, E2w, E2h.
  split; apply Qfloor_resp_le.
  - rewrite (Qmult_comm W s1), (Qmult_comm W s2).
    apply Qmult_le_compat_r; [exact Hs | now apply Qlt_le_weak].
  - rewrite (Qmult_comm H s1), (Qmult_comm H s2).
    apply Qmult_le_compat_r; [exact Hs | now apply Qlt_le_weak].
Qed.

Lemma extract_page_image_monotone_witness :
  (625 <= 1001)%Z /\ (1000 <= 1600)%Z.
Proof.
  apply (extract_page_image_monotone tall_pdf 0
           (sample_page 1001 1600 no_text) (sample_image 1001 1600)
           default_max_width default_max_height 2000 1600
           [] [] [] []
           (sample_image 625 1000) (sample_image 1001 1600)
           625 1000 1001 1600 (Some (1001, 1600)) (Some (1001, 1600)));
    solve [reflexivity | vm_compute; discriminate].
Defined.

(* ----------------------------------------------------------------- *)
(** *** The extractor: exceptions, order and composition *)

(** The accumulator is only ever extended: the loop from [acc] is the
    loop from the empty string with [acc] in front. *)
Lemma extract_text_loop_acc (b : bbox) (ps : list Page) :
  forall (n : Z) (acc : string),
    extract_text_loop ps n b acc
    = obind (extract_text_loop ps n b "") (fun r => Ok (acc ++ r)).
Proof.
  induction ps as [|p ps IH]; intros n acc; simpl.
  - now rewrite append_nil_r.
  - destruct (within_bbox_extract_text p b) as [[t|]|e]; simpl obind;
      try reflexivity.
    + destruct (str_truthy t).
      * rewrite (IH _ (acc ++ page_section n t)).
        rewrite (IH _ ("" ++ page_section n t)).
        destruct (extract_text_loop ps (n + 1)%Z b "") as [r|e]; simpl;
          [|reflexivity].
        now rewrite append_assoc.
      * apply IH.
    + apply IH.
Qed.

(** The loop over two lists of pages run one after the other. *)
Lemma extract_text_loop_app (b : bbox) (A : list Page) :
  forall (B : list Page) (n : Z) (acc : string),
    extract_text_loop (A ++ B)%list n b acc
    = obind (extract_text_loop A n b acc)
        (fun a =>
           extract_text_loop B (n + Z.of_nat (List.length A))%Z b a).
Proof.
  induction A as [|p A IH]; intros B n acc.
  - simpl. now rewrite Z.add_0_r.
  - change ((p :: A) ++ B)%list with (p :: (A ++ B))%list.
    cbn [extract_text_loop].
    destruct (within_bbox_extract_text p b) as [text|e]; simpl obind;
      [|reflexivity].
    rewrite IH.
    replace (n + 1 + Z.of_nat (List.length A))%Z
      with (n + Z.of_nat (List.length (p :: A)))%Z
      by (cbn [List.length]; lia).
    reflexivity.
Qed.

Lemma extract_text_loop_ok_iff (b : bbox) (ps : list Page) :
  forall (n : Z) (acc : string),
    (exists s, extract_text_loop ps n b acc = Ok s) <->
    Forall (fun p => exists y, within_bbox_extract_text p b = Ok y) ps.
Proof.
  induction ps as [|p ps IH]; intros n acc.
  - simpl. split; [constructor | eauto].
  - cbn [extract_text_loop]. split.
    + intros [s E].
      destruct (within_bbox_extract_text p b) as [y|e] eqn:Ep;
        simpl obind in E; [|discriminate].
      constructor; [eauto|]. eapply IH. eauto.
    + intros HF. inversion HF as [|? ? [y Ey] HF']; subst.
      rewrite Ey. simpl obind. apply IH. exact HF'.
Qed.

(** X10: the first page on which the library raises aborts the whole
    extraction with that exception, whatever the earlier pages yielded and
    whatever follows: no partial text is returned. *)
Theorem extract_text_from_pdf_first_raise (b : bbox)
    (before : list Page) (p : Page) (after : list Page) (e : exn) :
  Forall (fun q => exists y, within_bbox_extract_text q b = Ok y) before ->
  within_bbox_extract_text p b = Raise e ->
  extract_text_from_pdf {| pages := before ++ p :: after |} b = Raise e.
Proof.
  intros Hbefore Hp. unfold extract_text_from_pdf. cbn [pages].
  rewrite extract_text_loop_app.
  destruct (proj2 (extract_text_loop_ok_iff b before 1 "") Hbefore)
    as [a ->].
  simpl obind. cbn [extract_text_loop]. rewrite Hp. reflexivity.
Qed.

Lemma extract_text_from_pdf_first_raise_witness :
  extract_text_from_pdf
    {| pages := [sample_page 600 800 (fixed_text "hello")] ++
                sample_page 600 800 bad_bbox ::
                [sample_page 600 800 (fixed_text "world")] |}
    (0, 0, 100, 100)
  = Raise (LibraryError
      "Bounding box is not fully within parent page bounding box").
Proof.
  apply (extract_text_from_pdf_first_raise (0, 0, 100, 100)
           [sample_page 600 800 (fixed_text "hello")]
           (sample_page 600 800 bad_bbox)
           [sample_page 600 800 (fixed_text "world")]).
  - constructor; [|constructor]. exists (Some "hello"). reflexivity.
  - reflexivity.
Defined.

(** X11: [extract_text_from_pdf] returns a string exactly when no page
    raises for the rectangle; a document without pages always does. *)
Theorem extract_text_from_pdf_ok_iff (pdf : PDF) (b : bbox) :
  ((exists s, extract_text_from_pdf pdf b = Ok s) <->
   Forall (fun p => exists y, within_bbox_extract_text p b = Ok y)
     (pages pdf)) /\
  extract_text_from_pdf {| pages := [] |} b = Ok "".
Proof.
  split; [|reflexivity].
  unfold extract_text_from_pdf. apply extract_text_loop_ok_iff.
Qed.

Lemma extract_text_app_numbered (A B : list Page) (b : bbox) :
  extract_text_from_pdf {| pages := A ++ B |} b
  = obind (extract_text_from_pdf {| pages := A |} b)
      (fun a =>
         obind (extract_text_loop B (Z.of_nat (List.length A) + 1)%Z b "")
           (fun r => Ok (a ++ r))).
Proof.
  unfold extract_text_from_pdf. cbn [pages].
  rewrite extract_text_loop_app.
  rewrite (Z.add_comm 1 (Z.of_nat (List.length A))).
  destruct (extract_text_loop A 1 b "") as [a|e]; cbn [obind];
    [|reflexivity].
  apply extract_text_loop_acc.
Qed.

(** X12: extraction over a document made of two runs of pages: the text of
    the first run, followed by the text of the second run numbered from
    where the first stopped; an exception in either run is the result. *)
Theorem extract_text_from_pdf_app (A B : list Page) (b : bbox) :
  extract_text_from_pdf {| pages := A ++ B |} b
  = obind (extract_text_from_pdf {| pages := A |} b)
      (fun a =>
         obind (extract_text_loop B (Z.of_nat (List.length A) + 1)%Z b "")
           (fun r => Ok (a ++ r))).
Proof. exact (extract_text_app_numbered A B b). Qed.

(** X13: no text is lost or misnumbered: when the extraction succeeds, the
    text [t] of the page at position [k] (counted from 1) is in the result,
    right after the header [--- Page k ---] and right after the result for
    the pages before it. *)
Theorem extract_text_from_pdf_contains (before : list Page) (p : Page)
    (after : list Page) (b : bbox) (c : ascii) (t s : string) :
  within_bbox_extract_text p b = Ok (Some (String c t)) ->
  extract_text_from_pdf {| pages := before ++ p :: after |} b = Ok s ->
  exists pre post,
    extract_text_from_pdf {| pages := before |} b = Ok pre /\
    s = pre
        ++ page_section (Z.of_nat (List.length before) + 1) (String c t)
        ++ post.
Proof.
  intros Hp E. rewrite extract_text_app_numbered in E.
  destruct (extract_text_from_pdf {| pages := before |} b) as [pre|e];
    cbn [obind] in E; [|discriminate].
  cbn [extract_text_loop] in E. rewrite Hp in E.
  cbn [obind str_truthy] in E.
  rewrite extract_text_loop_acc in E.
  destruct (extract_text_loop after
              (Z.of_nat (List.length before) + 1 + 1)%Z b "")
    as [post|e]; cbn [obind] in E; [|discriminate].
  injection E as <-.
  exists pre, post. split; reflexivity.
Qed.

Lemma extract_text_from_pdf_contains_witness :
  exists pre post,
    extract_text_from_pdf {| pages := [sample_page 600 800 no_text] |}
      (0, 0, 100, 100) = Ok pre /\
    nl ++ nl ++ "--- Page 2 ---" ++ nl ++ "hello"
    = pre ++ page_section (Z.of_nat 1 + 1) "hello" ++ post.
Proof.
  apply (extract_text_from_pdf_contains [sample_page 600 800 no_text]
           (sample_page 600 800 (fixed_text "hello")) []
           (0, 0, 100, 100) "h" "ello");
    reflexivity.
Defined.

(* ----------------------------------------------------------------- *)
(** *** The script: every way a run can go *)

(** [main] is the case analysis [main_cases]. *)
Lemma main_is_main_cases (open : UploadedFile -> outcome PDF)
    (s : Session) (t : trace) :
  main open s t = main_cases open s t.
Proof.
  unfold main, main_cases.
  unfold bind at 1 2 3 4. unfold emit at 1 2 3 4.
  destruct (uploaded s) as [f|].
  2:{ unfold emit, main_heading. rewrite <- !app_assoc. reflexivity. }
  unfold bind at 1, calling. unfold bind at 1, emit at 1.
  rewrite load_pdf_run.
  destruct (open f) as [pdf|e].
  2:{ unfold emit, main_heading. rewrite <- !app_assoc. reflexivity. }
  unfold main_with_pdf. unfold bind at 1 2, emit at 1, lift at 1.
  destruct (slider s 1%Z (Z.of_nat (List.length (pages pdf))) 1%Z) as [selected|e].
  2:{ unfold shown_until_slider, main_heading. rewrite <- !app_assoc. reflexivity. }
  unfold bind at 1, calling. unfold bind at 1, emit at 1.
  rewrite extract_page_image_run.
  destruct (extract_page_image_try pdf (selected - 1) default_max_width default_max_height) as [[[img [width height]] pd]|e].
  2:{ unfold emit, shown_until_slider, main_heading. rewrite <- !app_assoc. reflexivity. }
  unfold bind at 1 2, emit at 1, lift at 1, not_none at 1.
  unfold bind at 1, emit at 1.
  destruct (json_data s) as [[|o objects]|].
  1,3: unfold emit, shown_until_canvas, shown_until_slider, main_heading; rewrite <- !app_assoc; reflexivity.
  unfold main_process_bbox.
  unfold bind at 1 2 3, emit at 1 2, calling at 1.
  unfold bind at 1 2 3, emit at 1, lift at 1 2 3, not_none.
  fold (corners (last objects o)).
  cbv zeta.
  destruct (scale_bbox_to_pdf (corners (last objects o)) (inject_Z width, inject_Z height) pd) as [sb|e].
  2:{ unfold shown_until_mapping, shown_until_canvas, shown_until_slider, main_heading. rewrite <- !app_assoc. reflexivity. }
  unfold bind at 1, emit at 1, calling. unfold bind at 1 2, emit at 1.
  unfold lift.
  destruct (extract_text_from_pdf pdf sb) as [text|e].
  2:{ unfold shown_before_extraction, main_heading. rewrite <- !app_assoc. reflexivity. }
  rewrite main_show_text_run. unfold shown_for_text, shown_before_extraction, main_heading.
  rewrite <- !app_assoc. reflexivity.
Qed.

(** X14: when the page cannot be rendered, the run ends normally after the
    two notices [Error processing page image: ...] and
    [Failed to process the selected page.]: no canvas is shown and neither
    the mapper nor the extractor is called. *)
Theorem main_render_failure
    (pdfplumber_open : UploadedFile -> outcome PDF)
    (s : Session) (f : UploadedFile) (pdf : PDF) (selected : Z) (e : exn)
    (t : trace) :
  uploaded s = Some f ->
  pdfplumber_open f = Ok pdf ->
  slider s 1%Z (Z.of_nat (List.length (pages pdf))) 1%Z = Ok selected ->
  extract_page_image_try pdf (selected - 1)
    default_max_width default_max_height = Raise e ->
  exists shown,
    main pdfplumber_open s t = (Ok tt, (t ++ shown)%list) /\
    shown = (shown_until_slider pdf ++
             [Call Fn_extract_page_image;
              St_error ("Error processing page image: " ++ exn_str e);
              St_error "Failed to process the selected page."])%list /\
    forallb (fun ev =>
               match ev with
               | St_canvas _ _ _ | Call Fn_scale_bbox_to_pdf
               | Call Fn_extract_text_from_pdf => false
               | _ => true
               end) shown = true.
Proof.
  intros Hup Hopen Hsl Htry. eexists. split; [|split; [reflexivity|]].
  - rewrite main_is_main_cases. unfold main_cases.
    rewrite Hup, Hopen, Hsl, Htry. reflexivity.
  - reflexivity.
Qed.

Lemma main_render_failure_witness :
  exists shown,
    main (fun _ => Ok small_pdf)
      {| uploaded := Some [];
         slider := fun _ _ _ => Ok 2%Z;
         json_data := Some [sample_rect] |} []
    = (Ok tt, ([] ++ shown)%list) /\
    shown = (shown_until_slider small_pdf ++
             [Call Fn_extract_page_image;
              St_error ("Error processing page image: "
                        ++ exn_str IndexError);
              St_error "Failed to process the selected page."])%list /\
    forallb (fun ev =>
               match ev with
               | St_canvas _ _ _ | Call Fn_scale_bbox_to_pdf
               | Call Fn_extract_text_from_pdf => false
               | _ => true
               end) shown = true.
Proof.
  apply (main_render_failure (fun _ => Ok small_pdf)
           {| uploaded := Some [];
              slider := fun _ _ _ => Ok 2%Z;
              json_data := Some [sample_rect] |}
           [] small_pdf 2 IndexError []);
    reflexivity.
Defined.

(** X15: as long as no rectangle is drawn ([json_data] is [None] or its
    list of objects is empty) the run ends normally with
    [Draw a bounding box to select text.] after the canvas: the mapper and
    the extractor are not called. *)
Theorem main_without_rectangle
    (pdfplumber_open : UploadedFile -> outcome PDF)
    (s : Session) (f : UploadedFile) (pdf : PDF) (selected : Z)
    (img : Image) (width height : Z) (pd : Q * Q) (t : trace) :
  uploaded s = Some f ->
  pdfplumber_open f = Ok pdf ->
  slider s 1%Z (Z.of_nat (List.length (pages pdf))) 1%Z = Ok selected ->
  extract_page_image_try pdf (selected - 1)
    default_max_width default_max_height = Ok (img, (width, height), pd) ->
  json_data s = None \/ json_data s = Some [] ->
  exists shown,
    main pdfplumber_open s t = (Ok tt, (t ++ shown)%list) /\
    shown = (shown_until_canvas pdf selected img width height ++
             [St_info "Draw a bounding box to select text."])%list /\
    forallb (fun ev =>
               match ev with
               | Call Fn_scale_bbox_to_pdf
               | Call Fn_extract_text_from_pdf => false
               | _ => true
               end) shown = true.
Proof.
  intros Hup Hopen Hsl Htry Hjson.
  eexists. split; [|split; [reflexivity|reflexivity]].
  rewrite main_is_main_cases. unfold main_cases.
  rewrite Hup, Hopen, Hsl, Htry.
  destruct Hjson as [-> | ->]; reflexivity.
Qed.

Lemma main_without_rectangle_witness :
  exists shown,
    main (fun _ => Ok small_pdf)
      {| uploaded := Some [];
         slider := fun _ _ value => Ok value;
         json_data := Some [] |} []
    = (Ok tt, ([] ++ shown)%list) /\
    shown = (shown_until_canvas small_pdf 1 (sample_image 750 1000)
               750 1000 ++
             [St_info "Draw a bounding box to select text."])%list /\
    forallb (fun ev =>
               match ev with
               | Call Fn_scale_bbox_to_pdf
               | Call Fn_extract_text_from_pdf => false
               | _ => true
               end) shown = true.
Proof.
  apply (main_without_rectangle (fun _ => Ok small_pdf)
           {| uploaded := Some [];
              slider := fun _ _ value => Ok value;
              json_data := Some [] |}
           [] small_pdf 1 (sample_image 750 1000) 750 1000 (600, 800) []);
    solve [reflexivity | right; reflexivity].
Defined.

(** X16: only the last drawn rectangle counts: a run with several
    rectangles on the canvas is the run with the last one alone. *)
Theorem main_uses_last_rectangle
    (pdfplumber_open : UploadedFile -> outcome PDF)
    (s : Session) (o : CanvasObject) (objects : list CanvasObject)
    (t : trace) :
  json_data s = Some (o :: objects) ->
  main pdfplumber_open s t
  = main pdfplumber_open
      {| uploaded := uploaded s;
         slider := slider s;
         json_data := Some [last objects o] |} t.
Proof.
  intros Hjson. rewrite !main_is_main_cases. unfold main_cases.
  cbn [uploaded slider json_data]. rewrite Hjson.
  reflexivity.
Qed.

Lemma main_uses_last_rectangle_witness :
  main (fun _ => Ok two_page_pdf)
    {| uploaded := Some [];
       slider := fun _ _ value => Ok value;
       json_data :=
         Some [ {| obj_left := 0; obj_top := 0;
                   obj_width := 10; obj_height := 10 |};
                sample_rect ] |} []
  = main (fun _ => Ok two_page_pdf)
      {| uploaded := Some [];
         slider := fun _ _ value => Ok value;
         json_data := Some [sample_rect] |} [].
Proof.
  apply (main_uses_last_rectangle (fun _ => Ok two_page_pdf)
           {| uploaded := Some [];
              slider := fun _ _ value => Ok value;
              json_data :=
                Some [ {| obj_left := 0; obj_top := 0;
                          obj_width := 10; obj_height := 10 |};
                       sample_rect ] |}
           {| obj_left := 0; obj_top := 0;
              obj_width := 10; obj_height := 10 |}
           [sample_rect] []).
  reflexivity.
Defined.

(** X18: in a run that reaches the extraction and gets a string back, the
    warning [No text found ...] is shown exactly when no page yields text
    for the rectangle; as soon as one page does, the text area and the
    download button are shown with the extracted text. *)
Theorem main_warning_iff_no_page_text
    (pdfplumber_open : UploadedFile -> outcome PDF)
    (s : Session) (f : UploadedFile) (pdf : PDF)
    (selected : Z) (img : Image) (width height : Z) (pd : Q * Q)
    (o : CanvasObject) (objects : list CanvasObject) (scaled_bbox : bbox)
    (extracted_text : string) (t : trace) :
  uploaded s = Some f ->
  pdfplumber_open f = Ok pdf ->
  slider s 1%Z (Z.of_nat (List.length (pages pdf))) 1%Z = Ok selected ->
  extract_page_image_try pdf (selected - 1)
    default_max_width default_max_height = Ok (img, (width, height), pd) ->
  json_data s = Some (o :: objects) ->
  scale_bbox_to_pdf (corners (last objects o))
    (inject_Z width, inject_Z height) pd = Ok scaled_bbox ->
  extract_text_from_pdf pdf scaled_bbox = Ok extracted_text ->
  main pdfplumber_open s t =
  (Ok tt,
   (t ++ shown_before_extraction pdf selected img width height
           (last objects o)
      ++ if existsb (yields_text scaled_bbox) (pages pdf)
         then [St_write "Extracted Text";
               St_text_area "Text from the selected area:"
                 extracted_text 300;
               St_download_button "Download Extracted Text" extracted_text
                 "extracted_text.txt" "text/plain"]
         else [St_warning
                 "No text found in the selected area across all pages."])%list).
Proof.
  intros Hup Hopen Hsl Htry Hjson Hscale Htext.
  rewrite main_is_main_cases. unfold main_cases.
  rewrite Hup, Hopen, Hsl, Htry, Hjson. cbv zeta.
  rewrite Hscale, Htext. unfold shown_for_text.
  destruct (extract_text_blank_iff_empty pdf scaled_bbox extracted_text Htext)
    as [_ Hiff].
  destruct (existsb (yields_text scaled_bbox) (pages pdf)).
  - destruct (str_truthy (strip extracted_text)) eqn:T; [reflexivity|].
    apply str_truthy_false in T. apply Hiff in T. discriminate.
  - rewrite (proj2 Hiff eq_refl). reflexivity.
Qed.

Lemma main_warning_iff_no_page_text_witness :
  main (fun _ => Ok two_page_pdf) sample_session [] =
  (Ok tt,
   ([] ++ shown_before_extraction two_page_pdf 1 (sample_image 750 1000)
            750 1000 sample_rect
      ++ [St_write "Extracted Text";
          St_text_area "Text from the selected area:"
            (nl ++ nl ++ "--- Page 2 ---" ++ nl ++ "hello") 300;
          St_download_button "Download Extracted Text"
            (nl ++ nl ++ "--- Page 2 ---" ++ nl ++ "hello")
            "extracted_text.txt" "text/plain"])%list).
Proof.
  apply (main_warning_iff_no_page_text (fun _ => Ok two_page_pdf)
           sample_session [] two_page_pdf 1 (sample_image 750 1000)
           750 1000 (600, 800) sample_rect []
           (100 * (600 / 750), 100 * (800 / 1000),
            (100 + 200) * (600 / 750), (100 + 100) * (800 / 1000))
           (nl ++ nl ++ "--- Page 2 ---" ++ nl ++ "hello") []);
    reflexivity.
Defined.

(* ----------------------------------------------------------------- *)
(** *** Headers identify their page *)

Lemma string_of_uint_no_space (d : Decimal.uint) :
  contains_char " " (NilEmpty.string_of_uint d) = false.
Proof. induction d; simpl; auto. Qed.

Lemma str_int_no_space (n : Z) : contains_char " " (str_int n) = false.
Proof.
  unfold str_int, NilZero.string_of_int, NilZero.string_of_uint.
  destruct (Z.to_int n) as [d|d]; destruct d; simpl;
    auto using string_of_uint_no_space.
Qed.

Lemma str_int_inj (n m : Z) : str_int n = str_int m -> n = m.
Proof.
  intros E. apply DecimalZ.to_int_inj.
  assert (Hn : forall z, Z.to_int z <> Decimal.Pos Decimal.Nil /\
                         Z.to_int z <> Decimal.Neg Decimal.Nil).
  { intros [|p|p]; simpl; split; try discriminate;
      intros C; injection C as C;
      exact (DecimalPos.Unsigned.to_uint_nonnil p C). }
  assert (Some (Z.to_int n) = Some (Z.to_int m)) as S.
  { rewrite <- (NilZero.isi (Z.to_int n)) by apply Hn.
    rewrite <- (NilZero.isi (Z.to_int m)) by apply Hn.
    unfold str_int in E. now rewrite E. }
  now injection S.
Qed.

Lemma split_at_space (a a' r r' : string) :
  contains_char " " a = false -> contains_char " " a' = false ->
  a ++ String " " r = a' ++ String " " r' -> a = a' /\ r = r'.
Proof.
  revert a'. induction a as [|x a IH]; intros [|x' a'] Ha Ha' E;
    simpl in *.
  - injection E as ->. auto.
  - injection E as <- _. discriminate.
  - injection E as -> _. discriminate.
  - injection E as -> E.
    apply orb_false_iff in Ha. apply orb_false_iff in Ha'.
    destruct (IH a' (proj2 Ha) (proj2 Ha') E) as [-> ->]. auto.
Qed.

(** X19: the section written for a page determines the page number and
    the text: two sections are equal only for the same number and the same
    text, so no two pages share a header. *)
Theorem page_section_inj (n m : Z) (t t' : string) :
  page_section n t = page_section m t' -> n = m /\ t = t'.
Proof.
  unfold page_section. simpl. intros E.
  injection E as E.
  apply split_at_space in E; try apply str_int_no_space.
  destruct E as [En Et]. apply str_int_inj in En.
  injection Et as Et. auto.
Qed.

Lemma page_section_inj_witness : 2%Z = 2%Z /\ "hello" = "hello".
Proof.
  apply (page_section_inj 2 2 "hello" "hello"). reflexivity.
Defined.

(* ----------------------------------------------------------------- *)
(** *** Order of the stages *)

Lemma calls_of_app (a b : trace) :
  calls_of (a ++ b)%list = (calls_of a ++ calls_of b)%list.
Proof.
  induction a as [|ev a IH]; [reflexivity|].
  destruct ev; simpl; rewrite IH; reflexivity.
Qed.

(** X20: in every run, whatever the upload, the widgets and the libraries
    do, the functions called by [main] form an initial part of the
    pipeline [load_pdf], [extract_page_image], [scale_bbox_to_pdf],
    [extract_text_from_pdf]: each is called at most once, in this order,
    and none is called before the previous one. *)
Theorem main_calls_follow_pipeline
    (pdfplumber_open : UploadedFile -> outcome PDF) (s : Session) :
  exists k : nat,
    calls_of (snd (main pdfplumber_open s [])) = firstn k pipeline.
Proof.
  rewrite main_is_main_cases. unfold main_cases.
  destruct (uploaded s) as [f|]; [|exists 0%nat; reflexivity].
  destruct (pdfplumber_open f) as [pdf|e0]; [|exists 1%nat; reflexivity].
  destruct (slider s 1%Z (Z.of_nat (List.length (pages pdf))) 1%Z)
    as [selected|e1]; [|exists 1%nat; reflexivity].
  destruct (extract_page_image_try pdf (selected - 1)
              default_max_width default_max_height)
    as [[[img [width height]] pd]|e2]; [|exists 2%nat; reflexivity].
  destruct (json_data s) as [[|o objects]|];
    try (exists 2%nat; reflexivity).
  cbv zeta.
  destruct (scale_bbox_to_pdf (corners (last objects o))
              (inject_Z width, inject_Z height) pd) as [sb|e3];
    [|exists 3%nat; reflexivity].
  destruct (extract_text_from_pdf pdf sb) as [text|e4];
    [|exists 4%nat; reflexivity].
  exists 4%nat. cbn [snd]. rewrite !calls_of_app.
  unfold shown_for_text.
  destruct (str_truthy (strip text)); reflexivity.
Qed.

(* ----------------------------------------------------------------- *)
(** *** Binary64 at the edge of the canvas *)

(** The mapper's products are rounded by the interpreter: the right edge
    of a canvas 37 pixels wide on a page 792 points wide is mapped one unit
    in the last place beyond the page, [37 * (792 / 37) > 792], where exact
    arithmetic gives 792. *)
Example binary64_edge_overshoot :
  exists v,
    Binary64Mapper.scale_coordinate 37 37 792 = Ok v /\
    PrimFloat.ltb (Binary64.float_of_int 792) v = true /\
    37 * (792 / 37) == 792.
Proof.
  eexists. split; [vm_compute; reflexivity|].
  split; vm_compute; reflexivity.
Qed.

(* ================================================================= *)
(** * The rasterizer with the interpreter's floats *)

(** [int(x)] on a float is the truncation toward zero of its exact
    value. *)
Lemma binary64_py_int_truncates (x : PrimFloat.float) (n : Z) :
  Binary64.py_int x = Ok n ->
  exists v, Binary64.value x = Some v /\ n = py_int v.
Proof.
  unfold Binary64.py_int, Binary64.value.
  destruct (FloatOps.Prim2SF x) as [s| | |s m e]; try discriminate.
  - intros E. injection E as <-. exists 0. split; reflexivity.
  - intros E. injection E as <-.
    destruct (Z.leb_spec 0 e) as [He|He].
    + eexists. split; [reflexivity|].
      destruct s; unfold py_int; simpl Qnum; simpl Qden.
      * now rewrite Z.quot_1_r.
      * now rewrite Z.quot_1_r.
    + eexists. split; [reflexivity|].
      assert (Hd : Z.pos (2 ^ Z.to_pos (- e)) = (2 ^ (- e))%Z).
      { rewrite Pos2Z.inj_pow. rewrite Z2Pos.id by lia. reflexivity. }
      destruct s; unfold py_int; simpl Qnum; simpl Qden; rewrite Hd.
      * change (Z.neg m) with (Z.opp (Z.pos m)).
        rewrite Z.quot_opp_l by (apply Z.pow_nonzero; lia).
        f_equal. symmetry. apply Z.quot_div_nonneg; [lia|].
        apply Z.pow_pos_nonneg; lia.
      * symmetry. apply Z.quot_div_nonneg; [lia|].
        apply Z.pow_pos_nonneg; lia.
Qed.

Lemma binary64_extract_page_image_run (pdf : PDF) (page_number : Z)
    (max_width max_height : PrimFloat.float) (t : trace) :
  Binary64.extract_page_image pdf page_number max_width max_height t =
  match Binary64.extract_page_image_try pdf page_number
          max_width max_height with
  | Ok (img_resized, size, pdf_dims) =>
      (Ok (Some img_resized, Some size, Some pdf_dims), t)
  | Raise e =>
      (Ok (None, None, None),
       (t ++ [St_error ("Error processing page image: " ++ exn_str e)])%list)
  end.
Proof.
  unfold Binary64.extract_page_image, try_except, bind, lift, ret, emit.
  destruct (Binary64.extract_page_image_try pdf page_number
              max_width max_height) as [[[i sz] pd]|e]; reflexivity.
Qed.

Lemma binary64_div_by_int_nonzero (bound : PrimFloat.float) (side : Z) :
  side <> 0%Z ->
  Binary64.div_by_int bound side
  = Ok (PrimFloat.div bound (Binary64.float_of_int side)).
Proof.
  intros Hs. unfold Binary64.div_by_int.
  destruct (Z.eqb_spec side 0); [contradiction | reflexivity].
Qed.

(** C3 (as the code has it): for a page image with positive sides the
    rasterizer computes, in binary64, the single factor
    [s = min(max_width / nativeW, max_height / nativeH)] and returns an
    image exactly when both [int(nativeW * s)] and [int(nativeH * s)] are
    defined and the resize to that size does not raise; the size is then
    exactly [int(nativeW * s)] by [int(nativeH * s)], with the same [s] on
    both axes and no case made of [s >= 1].  [int] truncates the exact
    value of the float product toward zero: it does not round. *)
Theorem extract_page_image_truncated_size (pdf : PDF) (page_number : Z)
    (page : Page) (img : Image) (max_width max_height : PrimFloat.float)
    (t t' : trace) (img_resized : Image) (new_width new_height : Z)
    (pd : option (Q * Q)) :
  py_index (pages pdf) page_number = Ok page ->
  to_image_original page = Ok img ->
  (0 < img_width img)%Z -> (0 < img_height img)%Z ->
  let nativeW := Binary64.float_of_int (img_width img) in
  let nativeH := Binary64.float_of_int (img_height img) in
  let s := Binary64.py_min (PrimFloat.div max_width nativeW)
                           (PrimFloat.div max_height nativeH) in
  (Binary64.extract_page_image pdf page_number max_width max_height t
   = (Ok (Some img_resized, Some (new_width, new_height), pd), t')
   <->
   Binary64.py_int (PrimFloat.mul nativeW s) = Ok new_width /\
   Binary64.py_int (PrimFloat.mul nativeH s) = Ok new_height /\
   resize img (new_width, new_height) = Ok img_resized /\
   pd = Some (page_width page, page_height page) /\
   t' = t) /\
  (forall n, Binary64.py_int (PrimFloat.mul nativeW s) = Ok n ->
     exists v, Binary64.value (PrimFloat.mul nativeW s) = Some v /\
               n = py_int v) /\
  (forall n, Binary64.py_int (PrimFloat.mul nativeH s) = Ok n ->
     exists v, Binary64.value (PrimFloat.mul nativeH s) = Some v /\
               n = py_int v).
Proof.
  intros Hpage Himg Hw Hh W H s.
  split; [|split; intros n; apply binary64_py_int_truncates].
  rewrite binary64_extract_page_image_run.
  unfold Binary64.extract_page_image_try. rewrite Hpage. cbn [obind].
  rewrite Himg. cbn [obind]. unfold Binary64.scale_factor_of.
  rewrite (binary64_div_by_int_nonzero max_width (img_width img))
    by lia.
  rewrite (binary64_div_by_int_nonzero max_height (img_height img))
    by lia.
  cbn [obind]. fold W H. fold s.
  destruct (Binary64.py_int (PrimFloat.mul W s)) as [nw|e1]; cbn [obind].
  - destruct (Binary64.py_int (PrimFloat.mul H s)) as [nh|e2]; cbn [obind].
    + destruct (resize img (nw, nh)) as [r|e3] eqn:Er; cbn [obind].
      * split.
        -- intros E. injection E as <- <- <- <- <-.
           rewrite Er. repeat split; reflexivity.
        -- intros (E1 & E2 & E3 & -> & ->).
           injection E1 as <-. injection E2 as <-.
           rewrite Er in E3. injection E3 as <-. reflexivity.
      * split; [discriminate|].
        intros (E1 & E2 & E3 & _). injection E1 as <-. injection E2 as <-.
        rewrite Er in E3. discriminate.
    + split; [discriminate|]. intros (_ & E2 & _). discriminate.
  - split; [discriminate|]. intros (E1 & _). discriminate.
Qed.

Lemma extract_page_image_truncated_size_witness :
  (Binary64.extract_page_image small_pdf 0
     Binary64.default_max_width Binary64.default_max_height []
   = (Ok (Some (sample_image 750 1000), Some (750, 1000)%Z,
          Some (600, 800)), []%list)
   <->
   Binary64.py_int
     (PrimFloat.mul (Binary64.float_of_int 600)
        (Binary64.py_min
           (PrimFloat.div Binary64.default_max_width
              (Binary64.float_of_int 600))
           (PrimFloat.div Binary64.default_max_height
              (Binary64.float_of_int 800)))) = Ok 750%Z /\
   Binary64.py_int
     (PrimFloat.mul (Binary64.float_of_int 800)
        (Binary64.py_min
           (PrimFloat.div Binary64.default_max_width
              (Binary64.float_of_int 600))
           (PrimFloat.div Binary64.default_max_height
              (Binary64.float_of_int 800)))) = Ok 1000%Z /\
   resize (sample_image 600 800) (750, 1000)%Z = Ok (sample_image 750 1000) /\
   Some (600, 800) = Some (page_width (sample_page 600 800 no_text),
                           page_height (sample_page 600 800 no_text)) /\
   @nil event = []%list) /\
  (forall n,
     Binary64.py_int
       (PrimFloat.mul (Binary64.float_of_int 600)
          (Binary64.py_min
             (PrimFloat.div Binary64.default_max_width
                (Binary64.float_of_int 600))
             (PrimFloat.div Binary64.default_max_height
                (Binary64.float_of_int 800)))) = Ok n ->
     exists v,
       Binary64.value
         (PrimFloat.mul (Binary64.float_of_int 600)
            (Binary64.py_min
               (PrimFloat.div Binary64.default_max_width
                  (Binary64.float_of_int 600))
               (PrimFloat.div Binary64.default_max_height
                  (Binary64.float_of_int 800)))) = Some v /\
       n = py_int v) /\
  (forall n,
     Binary64.py_int
       (PrimFloat.mul (Binary64.float_of_int 800)
          (Binary64.py_min
             (PrimFloat.div Binary64.default_max_width
                (Binary64.float_of_int 600))
             (PrimFloat.div Binary64.default_max_height
                (Binary64.float_of_int 800)))) = Ok n ->
     exists v,
       Binary64.value
         (PrimFloat.mul (Binary64.float_of_int 800)
            (Binary64.py_min
               (PrimFloat.div Binary64.default_max_width
                  (Binary64.float_of_int 600))
               (PrimFloat.div Binary64.default_max_height
                  (Binary64.float_of_int 800)))) = Some v /\
       n = py_int v).
Proof.
  apply (extract_page_image_truncated_size small_pdf 0
           (sample_page 600 800 no_text) (sample_image 600 800)
           Binary64.default_max_width Binary64.default_max_height [] []
           (sample_image 750 1000) 750 1000 (Some (600, 800)));
    reflexivity.
Defined.

(** The enlarged page (factor 5/4) and the US Letter page through the
    whole function: 750 x 1000, and 772 x 999 where the exact product for
    the height is 1000. *)
Example binary64_extract_page_image_samples :
  Binary64.extract_page_image small_pdf 0
    Binary64.default_max_width Binary64.default_max_height []
  = (Ok (Some (sample_image 750 1000), Some (750, 1000)%Z, Some (600, 800)),
     []%list) /\
  Binary64.extract_page_image {| pages := [sample_page 612 792 no_text] |} 0
    Binary64.default_max_width Binary64.default_max_height []
  = (Ok (Some (sample_image 772 999), Some (772, 999)%Z, Some (612, 792)),
     []%list).
Proof. split; vm_compute; reflexivity. Qed.

(* ----------------------------------------------------------------- *)
(** *** Bounds *)




(* ----------------------------------------------------------------- *)
(** *** A document without pages *)

(** C7, as stated with a document without pages counted as not parseable,
    fails: when the library opens such a document, [load_pdf] returns it
    and shows nothing, and the run goes on to the page slider and, when
    the slider returns, to [extract_page_image], which reports the missing
    page. *)
Lemma load_pdf_accepts_empty_document :
  load_pdf (fun _ => Ok empty_pdf) [] [] = (Ok (Some empty_pdf), []%list) /\
  main (fun _ => Ok empty_pdf) sample_session []
  = (Ok tt,
     (shown_until_slider empty_pdf ++
      [Call Fn_extract_page_image;
       St_error "Error processing page image: list index out of range";
       St_error "Failed to process the selected page."])%list) /\
  In (Call Fn_extract_page_image)
     (snd (main (fun _ => Ok empty_pdf) sample_session [])) /\
  forallb (fun ev =>
             match ev with
             | St_error body =>
                 negb (String.prefix "Failed to load PDF" body) &&
                 negb (String.prefix "Invalid PDF file" body)
             | _ => true
             end)
    (snd (main (fun _ => Ok empty_pdf) sample_session [])) = true.
Proof.
  split; [reflexivity|]. split; [reflexivity|].
  split; [|reflexivity].
  vm_compute. right. right. right. right. right. right. left. reflexivity.
Qed.
